(** * Note keeper: the in-memory record store and its JSON snapshot

    A shallow embedding of [notes_backend/src/services/database.py]
    (class [InMemoryDatabase]) together with the request and response models
    of [notes_backend/src/models/note.py].

    Conventions of the embedding.
    - Python [int] is [Z]; a [datetime] is the number of microseconds it
      denotes, a [Z]; [datetime.now()] is an argument [now] of the operation
      that reads the clock.
    - Python [str] is [string], one character of the string for one code
      point: the strings of the model are the Python strings over the code
      points below 256.  ([str.lower], [len] and [in] are modelled on these;
      beyond them [str.lower] is no longer a map of single characters.)
      A literal of this file that holds other than ASCII text denotes the
      string of its bytes.
    - A [dict] is an association list in insertion order (Python dicts keep
      it, and [get_notes] and [search_notes] depend on it).
    - An operation that can raise returns a [result]; an operation that
      mutates the store or the backing file takes and returns a [world].
    - [_save_to_file] gives the file after a save that does not raise.  The
      save raises whenever the configured path has no directory part
      ([os.makedirs('')]); [save_raises] tells, and the calls as their caller
      sees them are [create_note_checked], [update_note_body] and
      [delete_note_checked].  Failures that depend on the file system
      (permissions, a full disk) are not represented. *)

From Stdlib Require Import ZArith List String Ascii Bool Lia.
From Stdlib Require Import Sorting.Sorted Sorting.Permutation.
From Stdlib Require Import DecimalString DecimalZ DecimalPos.
Import ListNotations.

Open Scope Z_scope.

(** ** Exceptions *)

Inductive exn :=
| TypeError
| ValueError
| AttributeError
| UnicodeDecodeError
| FileNotFoundError
| ValidationError.

Inductive result (A : Type) :=
| Ok (a : A)
| Raise (e : exn).
Arguments Ok {A} a.
Arguments Raise {A} e.

Definition bind {A B} (r : result A) (k : A -> result B) : result B :=
  match r with
  | Ok a => k a
  | Raise e => Raise e
  end.

Notation "x <- r ;; k" := (bind r (fun x => k))
  (at level 61, r at next level, right associativity).

(** ** Python strings *)

Module PyStr.

(** [c.lower()] of one character below 256: the letters A to Z (65 to 90)
    and the capital letters of Latin-1 (192 to 222, the sign 215 apart)
    move 32 places up, to their small letters; every other character stays.
    On strings of such characters [str.lower] works character by
    character. *)
Definition lower_char (c : ascii) : ascii :=
  let n := nat_of_ascii c in
  if (((65 <=? n) && (n <=? 90)) ||
      ((192 <=? n) && (n <=? 222) && negb (n =? 215)))%nat
  then ascii_of_nat (n + 32) else c.

(** [s.lower()]. *)
Fixpoint lower (s : string) : string :=
  match s with
  | EmptyString => EmptyString
  | String c s' => String (lower_char c) (lower s')
  end.

(** [b.startswith(a)]. *)
Fixpoint startswith (a b : string) : bool :=
  match a, b with
  | EmptyString, _ => true
  | String _ _, EmptyString => false
  | String x a', String y b' => Ascii.eqb x y && startswith a' b'
  end.

(** [a in b] for two strings: [a] occurs in [b] as a contiguous segment. *)
Fixpoint contains (a b : string) : bool :=
  startswith a b ||
  match b with
  | EmptyString => false
  | String _ b' => contains a b'
  end.

(** [str(k)] for an [int]. *)
Definition str (k : Z) : string := NilZero.string_of_int (Z.to_int k).

(** [int(s)] for a decimal literal with an optional minus sign; [None] is
    [ValueError].  Python's [int] also takes a plus sign, surrounding blanks
    and underscores between digits; such keys are never written by
    [_save_to_file] and are not represented. *)
Definition int (s : string) : option Z :=
  option_map Z.of_int (NilZero.int_of_string s).

End PyStr.

(** ** Python dicts with [int] keys, in insertion order *)

Module PyDict.
Section Dict.
Context {V : Type}.

Definition dict := list (Z * V).

(** [d.get(k)]. *)
Fixpoint get (k : Z) (d : dict) : option V :=
  match d with
  | [] => None
  | (k', v) :: d' => if k =? k' then Some v else get k d'
  end.

(** [k in d]. *)
Definition mem (k : Z) (d : dict) : bool :=
  match get k d with Some _ => true | None => false end.

(** [d[k] = v]: an existing key keeps its place, a new key goes last. *)
Fixpoint set (k : Z) (v : V) (d : dict) : dict :=
  match d with
  | [] => [(k, v)]
  | (k', v') :: d' => if k =? k' then (k', v) :: d' else (k', v') :: set k v d'
  end.

(** [del d[k]] for a key that is present. *)
Fixpoint del (k : Z) (d : dict) : dict :=
  match d with
  | [] => []
  | (k', v') :: d' => if k =? k' then d' else (k', v') :: del k d'
  end.

(** [list(d.values())]. *)
Definition values (d : dict) : list V := map snd d.

Definition keys (d : dict) : list Z := map fst d.

End Dict.
Arguments dict V : clear implicits.
End PyDict.

(** ** Python lists: slices and [list.sort] *)

Module PyList.

(** One bound of a slice over a list of length [len]: a negative bound
    counts from the end, and every bound is clamped to [0, len]. *)
Definition bound (len i : Z) : Z :=
  if i <? 0 then Z.max 0 (i + len) else Z.min i len.

(** [l[start:stop]]. *)
Definition slice {A} (l : list A) (start stop : Z) : list A :=
  let len := Z.of_nat (List.length l) in
  let lo := bound len start in
  let hi := bound len stop in
  firstn (Z.to_nat (hi - lo)) (skipn (Z.to_nat lo) l).

Section Sort.
Context {A K : Type}.
Variable key : A -> K.
(** [a < b] on keys, which raises on keys that Python cannot compare. *)
Variable lt : K -> K -> result bool.

(** Put [x], which stood before every element of [l], into the sorted [l]:
    [x] passes the elements whose key is greater and stops at the first one
    that is not, so equal keys keep the order they had. *)
Fixpoint insert_reverse (x : A) (l : list A) : result (list A) :=
  match l with
  | [] => Ok [x]
  | y :: l' =>
      b <- lt (key x) (key y) ;;
      if b : bool then (r <- insert_reverse x l' ;; Ok (y :: r))
      else Ok (x :: y :: l')
  end.

(** [l.sort(key=key, reverse=True)]: a stable sort, greatest key first. *)
Fixpoint sort_reverse (l : list A) : result (list A) :=
  match l with
  | [] => Ok []
  | x :: l' => r <- sort_reverse l' ;; insert_reverse x r
  end.

End Sort.

(** The same sort over keys that are integers, where no comparison raises. *)
Section StableSort.
Context {A : Type}.
Variable rank : A -> Z.

Fixpoint insert_desc (x : A) (l : list A) : list A :=
  match l with
  | [] => [x]
  | y :: l' => if rank x <? rank y then y :: insert_desc x l' else x :: y :: l'
  end.

Fixpoint stable_sort_desc (l : list A) : list A :=
  match l with
  | [] => []
  | x :: l' => insert_desc x (stable_sort_desc l')
  end.

(** [a] may stand before [b] in a list sorted by [rank], greatest first. *)
Definition descending (a b : A) : Prop := rank b <= rank a.

(** On the elements of [l] the comparison [lt] of the keys never raises and
    answers as [<] on the ranks. *)
Definition answers {K : Type} (key : A -> K) (lt : K -> K -> result bool)
    (l : list A) : Prop :=
  forall a b, In a l -> In b l -> lt (key a) (key b) = Ok (rank a <? rank b).

End StableSort.

End PyList.

(** ** The models of [models/note.py] *)

(** [NoteCreate]: the validated body of a create request.  Pydantic has
    checked the title (1 to 200 characters) before the store sees it. *)
Record NoteCreate := {
  nc_title : string;
  nc_content : string
}.

(** [NoteUpdate]: a partial body.  [None] is a field the request left unset,
    [Some v] a field set to the text [v].  A field set to JSON [null], which
    [Optional[str]] lets through, is a [body_field] further down, and the
    update on such a body is [update_note_body]. *)
Record NoteUpdate := {
  nu_title : option string;
  nu_content : option string
}.

(** [NoteResponse]: what the store hands back; both stamps are datetimes. *)
Record NoteResponse := {
  nr_id : Z;
  nr_title : string;
  nr_content : string;
  nr_created_at : Z;
  nr_updated_at : Z
}.

Inductive field := f_title | f_content.

(** [note_data.model_dump(exclude_unset=True)]: the fields that were set,
    in declaration order. *)
Definition model_dump_exclude_unset (u : NoteUpdate) : list (field * string) :=
  (match nu_title u with Some v => [(f_title, v)] | None => [] end) ++
  (match nu_content u with Some v => [(f_content, v)] | None => [] end).

(** ** The store of [services/database.py] *)

(** The value under ['created_at'] or ['updated_at'] of a stored note:
    the [datetime] that [create_note] and [update_note] put there, or the
    text [str(datetime)] that [json.load] gives back for it.  [Text t] is the
    text of the datetime [t]; such texts compare as their datetimes do. *)
Inductive stamp :=
| Datetime (t : Z)
| Text (t : Z).

(** The datetime a stamp denotes; pydantic parses the text when it builds a
    [NoteResponse]. *)
Definition instant (s : stamp) : Z :=
  match s with Datetime t => t | Text t => t end.

(** [a < b] on stamps: two datetimes or two texts compare, a datetime and a
    text raise [TypeError]. *)
Definition stamp_lt (a b : stamp) : result bool :=
  match a, b with
  | Datetime x, Datetime y => Ok (x <? y)
  | Text x, Text y => Ok (x <? y)
  | _, _ => Raise TypeError
  end.

(** [a < b] on two datetimes. *)
Definition datetime_lt (a b : Z) : result bool := Ok (a <? b).

(** A stored note: the dict under one key of [self.notes].  The title and
    the content are the texts that [NoteCreate] and [NoteUpdate] validated,
    so building a [NoteResponse] from a stored note does not fail. *)
Record note := {
  id : Z;
  title : string;
  content : string;
  created_at : stamp;
  updated_at : stamp
}.

(** The [NoteResponse] built from the keys of a stored note. *)
Definition NoteResponse_of (n : note) : NoteResponse :=
  {| nr_id := id n;
     nr_title := title n;
     nr_content := content n;
     nr_created_at := instant (created_at n);
     nr_updated_at := instant (updated_at n) |}.

(** [note[f] = v]. *)
Definition set_field (n : note) (fv : field * string) : note :=
  match fv with
  | (f_title, v) =>
      {| id := id n; title := v; content := content n;
         created_at := created_at n; updated_at := updated_at n |}
  | (f_content, v) =>
      {| id := id n; title := title n; content := v;
         created_at := created_at n; updated_at := updated_at n |}
  end.

(** [note.update(update_data)]. *)
Definition dict_update (n : note) (update_data : list (field * string)) : note :=
  fold_left set_field update_data n.

(** [note['updated_at'] = now]. *)
Definition set_updated_at (n : note) (now : Z) : note :=
  {| id := id n; title := title n; content := content n;
     created_at := created_at n; updated_at := Datetime now |}.

(** A note as [json.dump(..., default=str)] writes it: [default] turns each
    datetime into its text, and a text stays as it is. *)
Record json_note := {
  j_id : Z;
  j_title : string;
  j_content : string;
  j_created_at : Z;
  j_updated_at : Z
}.

(** The document in the backing file.  A key of the top-level object may be
    absent; the keys of ['notes'] are strings. *)
Record document := {
  doc_notes : option (list (string * json_note));
  doc_next_id : option Z
}.

(** The backing file as [_load_from_file] meets it.
    - [Missing]: there is no file at the path.
    - [Empty], [Malformed]: an empty file, and a text file that is not
      JSON; both make [json.load] raise [JSONDecodeError].
    - [Undecodable]: bytes that are not text in the encoding of [open];
      reading them raises [UnicodeDecodeError].
    - [NotAnObject]: JSON whose value is not an object (a list, a number, a
      string, [null]), which has no [get].
    - [NotesNotAnObject]: a JSON object whose ['notes'] is not an object,
      which has no [items].
    - [Parsed d]: a JSON object that [json.load] reads as the document [d].
    The notes of a document hold the five keys with values of the types
    that [_save_to_file] writes; [_load_from_file] checks none of this, and
    a note of another shape is not represented. *)
Inductive file :=
| Missing
| Empty
| Malformed
| Parsed (d : document)
| Undecodable
| NotAnObject
| NotesNotAnObject.

(** [os.path.exists(path)]. *)
Definition exists_ (f : file) : bool :=
  match f with Missing => false | _ => true end.

(** The attributes of an [InMemoryDatabase]. *)
Record InMemoryDatabase := {
  data_file : option string;
  notes : PyDict.dict note;
  next_id : Z
}.

(** The store together with the file at its [data_file] path. *)
Record world := {
  db : InMemoryDatabase;
  disk : file
}.

(** Truth value of [self.data_file]: [None] and [''] are false. *)
Definition configured (p : option string) : bool :=
  match p with
  | None => false
  | Some s => negb (String.eqb s EmptyString)
  end.

Definition to_json (n : note) : json_note :=
  {| j_id := id n; j_title := title n; j_content := content n;
     j_created_at := instant (created_at n);
     j_updated_at := instant (updated_at n) |}.

Definition of_json (j : json_note) : note :=
  {| id := j_id j; title := j_title j; content := j_content j;
     created_at := Text (j_created_at j);
     updated_at := Text (j_updated_at j) |}.

(** The object handed to [json.dump]: [{'notes': self.notes, 'next_id':
    self.next_id}], whose [int] keys [json] writes as strings. *)
Definition snapshot (self : InMemoryDatabase) : document :=
  {| doc_notes :=
       Some (map (fun kv => (PyStr.str (fst kv), to_json (snd kv))) (notes self));
     doc_next_id := Some (next_id self) |}.

(** [_save_to_file]: the file after a call that does not raise (whether
    it raises is [save_raises], below). *)
Definition _save_to_file (self : InMemoryDatabase) (f : file) : file :=
  if configured (data_file self) then Parsed (snapshot self) else f.

(** [{int(k): v for k, v in items}], from left to right. *)
Fixpoint dict_comprehension (items : list (string * json_note))
    (acc : PyDict.dict note) : result (PyDict.dict note) :=
  match items with
  | [] => Ok acc
  | (k, v) :: rest =>
      match PyStr.int k with
      | Some i => dict_comprehension rest (PyDict.set i (of_json v) acc)
      | None => Raise ValueError
      end
  end.

Definition with_contents (self : InMemoryDatabase)
    (ns : PyDict.dict note) (nxt : Z) : InMemoryDatabase :=
  {| data_file := data_file self; notes := ns; next_id := nxt |}.

(** [_load_from_file]: [FileNotFoundError] and [JSONDecodeError] are caught
    and leave the empty state; no other exception is caught: not the
    [UnicodeDecodeError] of the read, not the [AttributeError] of
    [data.get] or [.items()], not the [ValueError] of [int(k)]. *)
Definition _load_from_file (self : InMemoryDatabase) (f : file)
    : result InMemoryDatabase :=
  match f with
  | Missing | Empty | Malformed => Ok (with_contents self [] 1)
  | Undecodable => Raise UnicodeDecodeError
  | NotAnObject | NotesNotAnObject => Raise AttributeError
  | Parsed data =>
      ns <- dict_comprehension
              (match doc_notes data with Some o => o | None => [] end) [] ;;
      Ok (with_contents self ns
            (match doc_next_id data with Some n => n | None => 1 end))
  end.

(** [InMemoryDatabase(data_file)] started on the file [f]. *)
Definition __init__ (path : option string) (f : file) : result InMemoryDatabase :=
  let self := {| data_file := path; notes := []; next_id := 1 |} in
  if configured path && exists_ f then _load_from_file self f else Ok self.

Definition with_notes (self : InMemoryDatabase) (ns : PyDict.dict note)
    : InMemoryDatabase :=
  with_contents self ns (next_id self).

(** [create_note]; [now] is what [datetime.now()] returns. *)
Definition create_note (w : world) (note_data : NoteCreate) (now : Z)
    : NoteResponse * world :=
  let self := db w in
  let note_dict :=
    {| id := next_id self;
       title := nc_title note_data;
       content := nc_content note_data;
       created_at := Datetime now;
       updated_at := Datetime now |} in
  let self' :=
    with_contents self (PyDict.set (next_id self) note_dict (notes self))
      (next_id self + 1) in
  (NoteResponse_of note_dict,
   {| db := self'; disk := _save_to_file self' (disk w) |}).

(** [get_note]; [None] is the "not found" signal. *)
Definition get_note (w : world) (note_id : Z) : option NoteResponse :=
  match PyDict.get note_id (notes (db w)) with
  | Some n => Some (NoteResponse_of n)
  | None => None
  end.

(** [get_notes]: sorts the raw notes on the value under ['created_at']. *)
Definition get_notes (w : world) (skip limit : Z)
    : result (list NoteResponse * Z) :=
  let all_notes := PyDict.values (notes (db w)) in
  all_notes <- PyList.sort_reverse created_at stamp_lt all_notes ;;
  let total := Z.of_nat (List.length all_notes) in
  let paginated_notes := PyList.slice all_notes skip (skip + limit) in
  Ok (map NoteResponse_of paginated_notes, total).

(** [update_note]; [None] is the "not found" signal. *)
Definition update_note (w : world) (note_id : Z) (note_data : NoteUpdate)
    (now : Z) : option NoteResponse * world :=
  let self := db w in
  match PyDict.get note_id (notes self) with
  | None => (None, w)
  | Some n =>
      let update_data := model_dump_exclude_unset note_data in
      match update_data with
      | [] => (Some (NoteResponse_of n), w)
      | _ :: _ =>
          let n' := set_updated_at (dict_update n update_data) now in
          let self' := with_notes self (PyDict.set note_id n' (notes self)) in
          (Some (NoteResponse_of n'),
           {| db := self'; disk := _save_to_file self' (disk w) |})
      end
  end.

(** [delete_note]. *)
Definition delete_note (w : world) (note_id : Z) : bool * world :=
  let self := db w in
  if PyDict.mem note_id (notes self) then
    let self' := with_notes self (PyDict.del note_id (notes self)) in
    (true, {| db := self'; disk := _save_to_file self' (disk w) |})
  else (false, w).

(** The test of the loop of [search_notes]. *)
Definition matches (query_lower : string) (n : note) : bool :=
  PyStr.contains query_lower (PyStr.lower (title n)) ||
  PyStr.contains query_lower (PyStr.lower (content n)).

(** [search_notes]: sorts the responses on their [created_at] datetime. *)
Definition search_notes (w : world) (query : string)
    : result (list NoteResponse) :=
  let query_lower := PyStr.lower query in
  let matching_notes :=
    map NoteResponse_of
      (filter (matches query_lower) (PyDict.values (notes (db w)))) in
  PyList.sort_reverse nr_created_at datetime_lt matching_notes.

(** ** The adapter of [routers/notes.py] *)

Inductive response (A : Type) :=
| Status200 (body : A)
| Status422
| Status500.
Arguments Status200 {A} body.
Arguments Status422 {A}.
Arguments Status500 {A}.

(** [GET /notes/search]: the query parameter is declared with
    [min_length=1], so a shorter [q] is refused before the handler runs; the
    handler turns an exception of the store into a 500. *)
Definition router_search_notes (w : world) (q : string)
    : response (list NoteResponse) :=
  if (String.length q <? 1)%nat then Status422
  else match search_notes w q with
       | Ok found => Status200 found
       | Raise _ => Status500
       end.

(** A run of Create and Delete calls, and the identifiers the Creates
    return, in order. *)
Inductive op :=
| Create (note_data : NoteCreate) (now : Z)
| Delete (note_id : Z).

Fixpoint run (w : world) (ops : list op) : list Z * world :=
  match ops with
  | [] => ([], w)
  | Create d now :: rest =>
      let (r, w') := create_note w d now in
      let (ids, w'') := run w' rest in
      (nr_id r :: ids, w'')
  | Delete i :: rest => run (snd (delete_note w i)) rest
  end.

(** The store that [InMemoryDatabase()] builds, with no backing file. *)
Definition fresh : world :=
  {| db := {| data_file := None; notes := []; next_id := 1 |};
     disk := Missing |}.

(** ** The wording of the specification *)

(** The letters that come in two cases, each capital with its small
    letter: the 26 letters of ASCII, and the 30 capital letters of Latin-1
    (192 to 214 and 216 to 222) with the letters 32 places further. *)
Definition case_pairs : list (ascii * ascii) :=
  combine (list_ascii_of_string "ABCDEFGHIJKLMNOPQRSTUVWXYZ")
          (list_ascii_of_string "abcdefghijklmnopqrstuvwxyz") ++
  map (fun n => (ascii_of_nat n, ascii_of_nat (n + 32)))
      (seq 192 23 ++ seq 216 7).

(** Two characters are the same letter: they are equal, or they are the two
    cases of one letter. *)
Definition same_letter (c d : ascii) : bool :=
  Ascii.eqb c d ||
  existsb (fun p => (Ascii.eqb (fst p) c && Ascii.eqb (snd p) d) ||
                    (Ascii.eqb (fst p) d && Ascii.eqb (snd p) c)) case_pairs.

(** Two texts are equal when letter case is ignored: the same length, and
    the same letter at every place. *)
Fixpoint same_text (a b : string) : bool :=
  match a, b with
  | EmptyString, EmptyString => true
  | String c a', String d b' => same_letter c d && same_text a' b'
  | _, _ => false
  end.

(** [t] contains [q] as a case-insensitive substring: some segment of [t]
    equals [q] once letter case is ignored. *)
Definition occurs_ignoring_case (q t : string) : Prop :=
  exists pre mid post : string,
    t = (pre ++ mid ++ post)%string /\ same_text mid q = true.

(** [a] may stand before [b] in a listing by [created_at] descending. *)
Definition newest_first (a b : NoteResponse) : Prop :=
  nr_created_at b <= nr_created_at a.

(** The same with ties broken by descending [id]. *)
Definition newest_first_then_id (a b : NoteResponse) : Prop :=
  nr_created_at b < nr_created_at a \/
  (nr_created_at b = nr_created_at a /\ nr_id b < nr_id a).

(** The responses of [l] created at the instant [t], in the order of [l]. *)
Definition created_on (t : Z) (l : list NoteResponse) : list NoteResponse :=
  filter (fun r => nr_created_at r =? t) l.

Definition is_datetime (s : stamp) : bool :=
  match s with Datetime _ => true | Text _ => false end.

(** Every note holds a datetime under ['created_at'], or every note holds a
    text: the stores in which [stamp_lt] never raises. *)
Definition comparable (l : list note) : bool :=
  forallb (fun n => is_datetime (created_at n)) l ||
  forallb (fun n => negb (is_datetime (created_at n))) l.

(** The fields of a partial body, as the specification counts them. *)
Definition supplies_no_field (u : NoteUpdate) : Prop :=
  nu_title u = None /\ nu_content u = None.

(** A new store instance started on the file the old one left. *)
Definition restart (w : world) : result world :=
  self <- __init__ (data_file (db w)) (disk w) ;;
  Ok {| db := self; disk := disk w |}.

(** A stored note as it comes back from the snapshot: both stamps are texts. *)
Definition reloaded (n : note) : note := of_json (to_json n).

(** The datetime under ['created_at'] of a stored note. *)
Definition created (n : note) : Z := instant (created_at n).

(** The whole listing, before pagination. *)
Definition listing (w : world) : list NoteResponse :=
  map NoteResponse_of
    (PyList.stable_sort_desc created (PyDict.values (notes (db w)))).

(** ** Stores used as examples *)

(** A store with a backing file, and the same store after it has created
    one note at instant 1. *)
Definition configured_empty : world :=
  {| db := {| data_file := Some "data/notes.json"%string;
              notes := []; next_id := 1 |};
     disk := Missing |}.

Definition one_note : world :=
  snd (create_note configured_empty
         {| nc_title := "a"%string; nc_content := "b"%string |} 1).

(** A store whose backing file is named without a directory. *)
Definition bare_name : world :=
  {| db := {| data_file := Some "notes.json"%string;
              notes := []; next_id := 1 |};
     disk := Missing |}.

(** Three notes, the first two created at the same instant. *)
Definition same_instant : world :=
  snd (run fresh
         [Create {| nc_title := "A"; nc_content := "x" |} 5;
          Create {| nc_title := "B"; nc_content := "x" |} 5;
          Create {| nc_title := "C"; nc_content := "x" |} 6]).

(** ** Calls in sequence *)

(** A mutating call of the store, with the clock reading it makes. *)
Inductive call :=
| CallCreate (note_data : NoteCreate) (now : Z)
| CallUpdate (note_id : Z) (note_data : NoteUpdate) (now : Z)
| CallDelete (note_id : Z).

Definition exec (w : world) (c : call) : world :=
  match c with
  | CallCreate d now => snd (create_note w d now)
  | CallUpdate i u now => snd (update_note w i u now)
  | CallDelete i => snd (delete_note w i)
  end.

Definition execs (w : world) (cs : list call) : world := fold_left exec cs w.

(** The clock readings of a sequence of calls, in order. *)
Fixpoint readings (cs : list call) : list Z :=
  match cs with
  | [] => []
  | CallCreate _ now :: rest => now :: readings rest
  | CallUpdate _ _ now :: rest => now :: readings rest
  | CallDelete _ :: rest => readings rest
  end.

(** The store that [InMemoryDatabase(path)] builds when it loads nothing. *)
Definition empty_store (path : option string) : InMemoryDatabase :=
  {| data_file := path; notes := []; next_id := 1 |}.

(** What the operations keep true of the map and the counter: every key is
    below the counter, and every note carries its key under ['id'].  The
    keys of a dict are distinct. *)
Definition consistent (self : InMemoryDatabase) : Prop :=
  NoDup (PyDict.keys (notes self)) /\
  Forall (fun k => k < next_id self) (PyDict.keys (notes self)) /\
  Forall (fun kv => id (snd kv) = fst kv) (notes self).

(** The backing file holds the snapshot of the store as it is now. *)
Definition in_sync (w : world) : Prop := disk w = Parsed (snapshot (db w)).

(** ** The rest of the adapter of [routers/notes.py] *)

(** What a route answers: a body with its status code, or an
    [HTTPException] (or a validation failure of FastAPI) with its code. *)
Inductive answer (A : Type) :=
| Answer (status : Z) (body : A)
| HTTPException (status : Z).
Arguments Answer {A} status body.
Arguments HTTPException {A} status.

Definition status_of {A} (a : answer A) : Z :=
  match a with Answer s _ => s | HTTPException s => s end.

(** [NoteListResponse]. *)
Record NoteListResponse := {
  lr_notes : list NoteResponse;
  lr_total : Z;
  lr_page : Z;
  lr_per_page : Z
}.

(** The constraint [min_length=1, max_length=200] that [NoteBase] and
    [NoteUpdate] put on a title: pydantic counts characters, and a
    character of the model is one code point. *)
Definition title_ok (t : string) : bool :=
  ((1 <=? String.length t) && (String.length t <=? 200))%nat.

(** Whether [_save_to_file] raises within a call that reaches it:
    [os.makedirs(os.path.dirname(path), exist_ok=True)] raises
    [FileNotFoundError] when the directory part of the path is empty, that
    is, when the path holds no ['/'].  ([_save_to_file] above is the file
    after a save that does not raise.) *)
Definition save_raises (self : InMemoryDatabase) : bool :=
  match data_file self with
  | Some p => configured (Some p) && negb (PyStr.contains "/" p)
  | None => false
  end.

(** The three calls that save, as their caller sees them: when the save
    raises, the map and the counter have been changed already, the file has
    not, and the exception leaves the call. *)
Definition create_note_checked (w : world) (note_data : NoteCreate) (now : Z)
    : result NoteResponse * world :=
  let (r, w') := create_note w note_data now in
  if save_raises (db w) then
    (Raise FileNotFoundError, {| db := db w'; disk := disk w |})
  else (Ok r, w').

Definition update_note_checked (w : world) (note_id : Z)
    (note_data : NoteUpdate) (now : Z) : result (option NoteResponse) * world :=
  let (r, w') := update_note w note_id note_data now in
  match PyDict.get note_id (notes (db w)),
        model_dump_exclude_unset note_data with
  | Some _, _ :: _ =>
      if save_raises (db w) then
        (Raise FileNotFoundError, {| db := db w'; disk := disk w |})
      else (Ok r, w')
  | _, _ => (Ok r, w')
  end.

Definition delete_note_checked (w : world) (note_id : Z)
    : result bool * world :=
  let (b, w') := delete_note w note_id in
  if PyDict.mem note_id (notes (db w)) && save_raises (db w) then
    (Raise FileNotFoundError, {| db := db w'; disk := disk w |})
  else (Ok b, w').

(** [POST /notes/]: the body is validated into a [NoteCreate] before the
    handler runs (a body whose title or content is missing or is not a
    string is refused with 422 as well, and is not represented); the
    handler turns an exception of the store into a 500. *)
Definition router_create_note (w : world) (title content : string) (now : Z)
    : answer NoteResponse * world :=
  if title_ok title then
    match create_note_checked w
            {| nc_title := title; nc_content := content |} now with
    | (Ok r, w') => (Answer 201 r, w')
    | (Raise _, w') => (HTTPException 500, w')
    end
  else (HTTPException 422, w).

(** [GET /notes/]: [page] is declared [ge=1], [per_page] is declared
    [ge=1, le=100]; an exception of the store becomes a 500. *)
Definition router_get_notes (w : world) (page per_page : Z)
    : answer NoteListResponse :=
  if (1 <=? page) && (1 <=? per_page) && (per_page <=? 100) then
    let skip := (page - 1) * per_page in
    match get_notes w skip per_page with
    | Ok (found, total) =>
        Answer 200 {| lr_notes := found; lr_total := total;
                      lr_page := page; lr_per_page := per_page |}
    | Raise _ => HTTPException 500
    end
  else HTTPException 422.

(** [GET /notes/{note_id}]. *)
Definition router_get_note (w : world) (note_id : Z) : answer NoteResponse :=
  match get_note w note_id with
  | Some n => Answer 200 n
  | None => HTTPException 404
  end.

(** A field of the body of a PUT: left out, set to JSON [null], or set to
    a string.  [Optional[str]] accepts [null], and
    [model_dump(exclude_unset=True)] keeps a field that was set to it. *)
Inductive body_field :=
| Absent
| Null
| Str (s : string).

(** The [NoteUpdate] of a body none of whose fields is [null]. *)
Definition to_NoteUpdate (title content : body_field) : option NoteUpdate :=
  match title, content with
  | Null, _ | _, Null => None
  | Absent, Absent => Some {| nu_title := None; nu_content := None |}
  | Absent, Str c => Some {| nu_title := None; nu_content := Some c |}
  | Str t, Absent => Some {| nu_title := Some t; nu_content := None |}
  | Str t, Str c => Some {| nu_title := Some t; nu_content := Some c |}
  end.

(** [update_note] on any body, as its caller sees it.  With a field set to
    [null] and a note that exists, [note.update] puts [None] under that key,
    the dump is not empty, so the stamp is set and the save runs, and then
    building the [NoteResponse] raises (or the save has raised before it):
    the store is left holding a note for which the model has no value,
    hence no world ([None]).  For an identifier that is not in the store
    the body is not looked at. *)
Definition update_note_body (w : world) (note_id : Z)
    (title content : body_field) (now : Z)
    : result (option NoteResponse) * option world :=
  match to_NoteUpdate title content with
  | Some note_data =>
      let (r, w') := update_note_checked w note_id note_data now in
      (r, Some w')
  | None =>
      if PyDict.mem note_id (notes (db w)) then
        (Raise (if save_raises (db w) then FileNotFoundError
                else ValidationError), None)
      else (Ok None, Some w)
  end.

(** [PUT /notes/{note_id}]: the body is validated into a [NoteUpdate], in
    which a title that is a string obeys the constraint and a title that is
    [null] passes.  The handler catches nothing, so an exception of the
    store is answered with 500. *)
Definition router_update_note (w : world) (note_id : Z)
    (title content : body_field) (now : Z)
    : answer NoteResponse * option world :=
  if match title with Str t => title_ok t | _ => true end then
    match update_note_body w note_id title content now with
    | (Ok (Some r), w') => (Answer 200 r, w')
    | (Ok None, w') => (HTTPException 404, w')
    | (Raise _, w') => (HTTPException 500, w')
    end
  else (HTTPException 422, Some w).

(** [DELETE /notes/{note_id}]; the handler catches nothing. *)
Definition router_delete_note (w : world) (note_id : Z) : answer unit * world :=
  match delete_note_checked w note_id with
  | (Ok true, w') => (Answer 204 tt, w')
  | (Ok false, w') => (HTTPException 404, w')
  | (Raise _, w') => (HTTPException 500, w')
  end.

(** A request that may change the store. *)
Inductive request :=
| Post (title content : string) (now : Z)
| Put (note_id : Z) (title content : body_field) (now : Z)
| DeleteRequest (note_id : Z).

(** The status the request is answered with, and the store after it
    ([None] when the model has no value for it). *)
Definition serve (w : world) (r : request) : Z * option world :=
  match r with
  | Post t c now =>
      (status_of (fst (router_create_note w t c now)),
       Some (snd (router_create_note w t c now)))
  | Put i t c now =>
      (status_of (fst (router_update_note w i t c now)),
       snd (router_update_note w i t c now))
  | DeleteRequest i =>
      (status_of (fst (router_delete_note w i)),
       Some (snd (router_delete_note w i)))
  end.

(** The store after a sequence of requests, as long as the model has a
    value for it. *)
Fixpoint serves (w : world) (rs : list request) : option world :=
  match rs with
  | [] => Some w
  | r :: rest =>
      match snd (serve w r) with
      | Some w' => serves w' rest
      | None => None
      end
  end.

(** The calls in sequence as their callers see them: a call that raises
    leaves the store as the exception found it, and the next call goes
    on from there. *)
Definition exec_checked (w : world) (c : call) : world :=
  match c with
  | CallCreate d now => snd (create_note_checked w d now)
  | CallUpdate i u now => snd (update_note_checked w i u now)
  | CallDelete i => snd (delete_note_checked w i)
  end.

Definition execs_checked (w : world) (cs : list call) : world :=
  fold_left exec_checked cs w.

(** ** Startup of the application, [api/main.py] *)

(** The module-level [db = InMemoryDatabase()] of [services/database.py],
    then [if settings.data_file: db.data_file = settings.data_file;
    db._load_from_file()]. *)
Definition startup (settings_data_file : option string) (f : file)
    : result InMemoryDatabase :=
  let db0 := {| data_file := None; notes := []; next_id := 1 |} in
  if configured settings_data_file then
    _load_from_file
      {| data_file := settings_data_file;
         notes := notes db0; next_id := next_id db0 |} f
  else Ok db0.

(** A file in which a key of ['notes'] is not an integer. *)
Definition bad_key : document :=
  {| doc_notes :=
       Some [("abc"%string,
              {| j_id := 1; j_title := "a"; j_content := "b";
                 j_created_at := 1; j_updated_at := 1 |})];
     doc_next_id := Some 2 |}.

(** A file written without the counter: the notes 1 and 2 and no
    ['next_id'] key. *)
Definition no_counter : document :=
  {| doc_notes :=
       Some [("1"%string,
              {| j_id := 1; j_title := "a"; j_content := "b";
                 j_created_at := 1; j_updated_at := 1 |});
             ("2"%string,
              {| j_id := 2; j_title := "c"; j_content := "d";
                 j_created_at := 2; j_updated_at := 2 |})];
     doc_next_id := None |}.

(** The store that starts on that file. *)
Definition stale : world :=
  match __init__ (Some "data/notes.json"%string) (Parsed no_counter) with
  | Ok self => {| db := self; disk := Parsed no_counter |}
  | Raise _ => fresh
  end.

(** * Properties *)

(** ** Strings *)

Module PyStrFacts.
Import PyStr.
Local Open Scope string_scope.

Lemma startswith_app a post : startswith a (a ++ post) = true.
Proof.
  induction a as [|c a IH]; simpl; [reflexivity|].
  now rewrite Ascii.eqb_refl, IH.
Qed.

Lemma startswith_inv a : forall b,
  startswith a b = true -> exists post, b = a ++ post.
Proof.
  induction a as [|c a IH]; intros b H; simpl in *.
  - now exists b.
  - destruct b as [|d b]; [discriminate|].
    apply andb_true_iff in H as [Hc Hs].
    apply Ascii.eqb_eq in Hc; subst d.
    destruct (IH _ Hs) as [post ->].
    now exists post.
Qed.

Lemma contains_app a pre : forall post, contains a (pre ++ a ++ post) = true.
Proof.
  induction pre as [|c pre IH]; intros post.
  - simpl append at 1.
    destruct (a ++ post) eqn:E; simpl; rewrite <- ?E, startswith_app;
      reflexivity.
  - simpl. rewrite IH. apply orb_true_r.
Qed.

Lemma contains_inv a : forall b,
  contains a b = true -> exists pre post, b = pre ++ a ++ post.
Proof.
  induction b as [|c b IH]; simpl; intros H.
  - rewrite orb_false_r in H. apply startswith_inv in H as [post ->].
    now exists "", post.
  - apply orb_true_iff in H as [H|H].
    + apply startswith_inv in H as [post ->]. now exists "", post.
    + destruct (IH H) as (pre & post & ->).
      now exists (String c pre), post.
Qed.

(** Python's [a in b] finds exactly the contiguous segments. *)
Lemma contains_iff a b :
  contains a b = true <-> exists pre post, b = pre ++ a ++ post.
Proof.
  split; [apply contains_inv|].
  intros (pre & post & ->). apply contains_app.
Qed.

Lemma contains_empty b : contains "" b = true.
Proof. destruct b; reflexivity. Qed.

Lemma lower_app a b : lower (a ++ b) = lower a ++ lower b.
Proof. induction a as [|c a IH]; simpl; [reflexivity|now rewrite IH]. Qed.

Lemma lower_split a : forall s b,
  lower s = a ++ b ->
  exists s1 s2, s = s1 ++ s2 /\ lower s1 = a /\ lower s2 = b.
Proof.
  induction a as [|c a IH]; intros s b H.
  - exists "", s. auto.
  - destruct s as [|d s]; simpl in H; [discriminate|].
    injection H as Hd Hs.
    destruct (IH _ _ Hs) as (s1 & s2 & -> & H1 & H2).
    exists (String d s1), s2. simpl. now rewrite Hd, H1.
Qed.

(** Every character is one of the 256. *)
Lemma all_chars c : In c (map ascii_of_nat (seq 0 256)).
Proof.
  apply in_map_iff. exists (nat_of_ascii c).
  split; [apply ascii_nat_embedding|].
  apply in_seq. pose proof (nat_ascii_bounded c). simpl. lia.
Qed.

(** Two characters have the same [lower] exactly when they are the same
    letter: checked on all pairs of characters. *)
Lemma lower_char_same c d :
  Ascii.eqb (lower_char c) (lower_char d) = same_letter c d.
Proof.
  assert (H : forallb (fun c => forallb (fun d =>
                Bool.eqb (Ascii.eqb (lower_char c) (lower_char d))
                         (same_letter c d))
                (map ascii_of_nat (seq 0 256)))
              (map ascii_of_nat (seq 0 256)) = true) by (vm_compute; reflexivity).
  rewrite forallb_forall in H. specialize (H c (all_chars c)).
  rewrite forallb_forall in H. specialize (H d (all_chars d)).
  now apply Bool.eqb_prop in H.
Qed.

(** Two texts have the same [lower] exactly when they are equal up to
    letter case. *)
Lemma lower_same_text a : forall b,
  lower a = lower b <-> same_text a b = true.
Proof.
  induction a as [|c a IH]; intros [|d b]; simpl;
    try (split; [discriminate|discriminate]); [tauto|].
  rewrite andb_true_iff, <- IH, <- lower_char_same, Ascii.eqb_eq.
  split; [intros [= -> ->]; auto|intros [-> ->]; reflexivity].
Qed.

(** The test of [search_notes] on one text decides the specification's
    case-insensitive containment. *)
Lemma contains_lower_iff q t :
  contains (lower q) (lower t) = true <-> occurs_ignoring_case q t.
Proof.
  rewrite contains_iff. split.
  - intros (pre & post & H).
    apply lower_split in H as (s1 & s2 & -> & H1 & H2).
    apply lower_split in H2 as (s3 & s4 & -> & H3 & H4).
    exists s1, s3, s4. split; [reflexivity|]. now apply lower_same_text.
  - intros (pre & mid & post & -> & H).
    exists (lower pre), (lower post).
    apply lower_same_text in H. now rewrite !lower_app, H.
Qed.

End PyStrFacts.

(** ** Lists *)

Module PyListFacts.
Import PyList.

Section StableSort.
Context {A : Type}.
Variable rank : A -> Z.

Lemma insert_desc_perm x l : Permutation (insert_desc rank x l) (x :: l).
Proof.
  induction l as [|y l IH]; simpl; [reflexivity|].
  destruct (rank x <? rank y); [|reflexivity].
  rewrite IH. apply perm_swap.
Qed.

Lemma stable_sort_desc_perm l : Permutation (stable_sort_desc rank l) l.
Proof.
  induction l as [|x l IH]; simpl; [reflexivity|].
  rewrite insert_desc_perm. now constructor.
Qed.

Lemma insert_desc_sorted x l :
  StronglySorted (descending rank) l ->
  StronglySorted (descending rank) (insert_desc rank x l).
Proof.
  induction 1 as [|y l Hs IH Hall]; simpl.
  - repeat constructor.
  - destruct (rank x <? rank y) eqn:E.
    + apply Z.ltb_lt in E. constructor; [exact IH|].
      eapply Permutation_Forall; [symmetry; apply insert_desc_perm|].
      constructor; [unfold descending; lia|exact Hall].
    + apply Z.ltb_ge in E. constructor; [now constructor|].
      constructor; [exact E|].
      eapply Forall_impl; [|exact Hall].
      unfold descending; intros; lia.
Qed.

Lemma stable_sort_desc_sorted l :
  StronglySorted (descending rank) (stable_sort_desc rank l).
Proof.
  induction l; simpl; [constructor|now apply insert_desc_sorted].
Qed.

(** Stability: the elements of one rank keep their order. *)
Lemma insert_desc_stable t x l :
  filter (fun a => rank a =? t) (insert_desc rank x l) =
  filter (fun a => rank a =? t) (x :: l).
Proof.
  induction l as [|y l IH]; [reflexivity|].
  simpl insert_desc. destruct (rank x <? rank y) eqn:E; [|reflexivity].
  apply Z.ltb_lt in E. simpl filter in *. rewrite IH.
  destruct (rank x =? t) eqn:Ex, (rank y =? t) eqn:Ey; try reflexivity.
  apply Z.eqb_eq in Ex, Ey. lia.
Qed.

Lemma stable_sort_desc_stable t l :
  filter (fun a => rank a =? t) (stable_sort_desc rank l) =
  filter (fun a => rank a =? t) l.
Proof.
  induction l as [|x l IH]; [reflexivity|].
  simpl stable_sort_desc. rewrite insert_desc_stable.
  simpl. now rewrite IH.
Qed.

(** [sort_reverse] is the stable sort wherever its comparison answers. *)
Section Agree.
Context {K : Type}.
Variable key : A -> K.
Variable lt : K -> K -> result bool.

Lemma insert_reverse_answers x l :
  answers rank key lt (x :: l) ->
  insert_reverse key lt x l = Ok (insert_desc rank x l).
Proof.
  induction l as [|y l IH]; intros H; [reflexivity|].
  simpl. rewrite H by (simpl; auto). simpl.
  destruct (rank x <? rank y); [|reflexivity].
  rewrite IH; [reflexivity|].
  intros a b Ha Hb. apply H; simpl in *; tauto.
Qed.

Lemma sort_reverse_answers l :
  answers rank key lt l -> sort_reverse key lt l = Ok (stable_sort_desc rank l).
Proof.
  induction l as [|x l IH]; intros H; [reflexivity|].
  simpl. rewrite IH by (intros a b Ha Hb; apply H; simpl; auto).
  simpl. apply insert_reverse_answers.
  intros a b Ha Hb. apply H.
  - destruct Ha as [<-|Ha]; [now left|right].
    eapply Permutation_in; [apply stable_sort_desc_perm|exact Ha].
  - destruct Hb as [<-|Hb]; [now left|right].
    eapply Permutation_in; [apply stable_sort_desc_perm|exact Hb].
Qed.

End Agree.
End StableSort.

(** Slices. *)

Lemma StronglySorted_skipn {A} (R : A -> A -> Prop) n : forall l,
  StronglySorted R l -> StronglySorted R (skipn n l).
Proof.
  induction n as [|n IH]; intros l H; [exact H|].
  destruct l; [constructor|]. simpl. apply IH. now inversion H.
Qed.

Lemma In_firstn {A} (y : A) n : forall l, In y (firstn n l) -> In y l.
Proof.
  induction n as [|n IH]; intros [|x l]; simpl; try tauto.
  intros [H|H]; [now left|right; now apply IH].
Qed.

Lemma StronglySorted_firstn {A} (R : A -> A -> Prop) n : forall l,
  StronglySorted R l -> StronglySorted R (firstn n l).
Proof.
  induction n as [|n IH]; intros l H; [constructor|].
  destruct l as [|x l]; [constructor|]. simpl.
  inversion H as [|? ? Hs Hall]; subst. constructor; [now apply IH|].
  rewrite Forall_forall in *. intros y Hy. apply Hall.
  eapply In_firstn; eauto.
Qed.

Lemma slice_sorted {A} (R : A -> A -> Prop) l start stop :
  StronglySorted R l -> StronglySorted R (slice l start stop).
Proof.
  intros H. unfold slice.
  now apply StronglySorted_firstn, StronglySorted_skipn.
Qed.

(** A slice that starts at or past the end is empty. *)
Lemma slice_beyond {A} (l : list A) start stop :
  Z.of_nat (List.length l) <= start -> slice l start stop = [].
Proof.
  intros H. unfold slice, bound.
  destruct (start <? 0) eqn:E; [apply Z.ltb_lt in E; lia|].
  rewrite (Z.min_r start) by lia. rewrite Nat2Z.id, skipn_all.
  apply firstn_nil.
Qed.

(** For bounds that are not negative a slice drops [start] elements and
    keeps the next [stop - start]. *)
Lemma slice_nonneg {A} (l : list A) start stop :
  0 <= start -> 0 <= stop ->
  slice l start stop =
  firstn (Z.to_nat (stop - start)) (skipn (Z.to_nat start) l).
Proof.
  intros Hs Ht. unfold slice, bound.
  destruct (start <? 0) eqn:E1; [apply Z.ltb_lt in E1; lia|].
  destruct (stop <? 0) eqn:E2; [apply Z.ltb_lt in E2; lia|].
  set (len := Z.of_nat (List.length l)).
  destruct (Z.le_gt_cases len start) as [Hge|Hlt].
  - rewrite (Z.min_r start) by lia. unfold len. rewrite Nat2Z.id.
    rewrite skipn_all, firstn_nil.
    rewrite skipn_all2 by lia. now rewrite firstn_nil.
  - rewrite (Z.min_l start) by lia.
    destruct (Z.le_gt_cases len stop) as [Hge'|Hlt'].
    + rewrite (Z.min_r stop) by lia.
      rewrite !firstn_all2; [reflexivity| |]; rewrite length_skipn; lia.
    + now rewrite (Z.min_l stop) by lia.
Qed.

End PyListFacts.

(** ** Dicts *)

Module PyDictFacts.
Import PyDict.
Section Dict.
Context {V : Type}.
Implicit Types (d : dict V) (k : Z) (v : V).

Lemma get_set_same k v d : get k (set k v d) = Some v.
Proof.
  induction d as [|[k' v'] d IH]; simpl.
  - now rewrite Z.eqb_refl.
  - destruct (k =? k') eqn:E; simpl; rewrite E; [reflexivity|exact IH].
Qed.

Lemma get_set_other k k' v d : k' <> k -> get k' (set k v d) = get k' d.
Proof.
  intros Hne. induction d as [|[k0 v0] d IH]; simpl.
  - apply Z.eqb_neq in Hne. now rewrite Hne.
  - destruct (k =? k0) eqn:E; simpl; [|now rewrite IH].
    apply Z.eqb_eq in E; subst k0.
    apply Z.eqb_neq in Hne. now rewrite Hne.
Qed.

(** Assigning to a key that is present moves no key. *)
Lemma keys_set_present k v d : mem k d = true -> keys (set k v d) = keys d.
Proof.
  unfold mem. induction d as [|[k0 v0] d IH]; simpl; [discriminate|].
  destruct (k =? k0) eqn:E; simpl; [reflexivity|].
  intros H. now rewrite IH.
Qed.

(** Assigning to a key that is absent appends it. *)
Lemma set_absent k v d : mem k d = false -> set k v d = d ++ [(k, v)].
Proof.
  unfold mem. induction d as [|[k0 v0] d IH]; simpl; [reflexivity|].
  destruct (k =? k0) eqn:E; [discriminate|].
  intros H. now rewrite IH.
Qed.

Lemma mem_false_not_in k d : mem k d = false <-> ~ In k (keys d).
Proof.
  unfold mem. induction d as [|[k0 v0] d IH]; simpl; [tauto|].
  destruct (k =? k0) eqn:E.
  - apply Z.eqb_eq in E. split; [discriminate|]. intros H. exfalso; auto.
  - apply Z.eqb_neq in E. rewrite IH. split; [|tauto].
    intros H [H'|H']; [congruence|tauto].
Qed.

End Dict.
End PyDictFacts.

(** ** The store *)

Lemma dict_update_title n u :
  title (dict_update n (model_dump_exclude_unset u)) =
  match nu_title u with Some v => v | None => title n end.
Proof. destruct u as [[t|] [c|]]; reflexivity. Qed.

Lemma dict_update_content n u :
  content (dict_update n (model_dump_exclude_unset u)) =
  match nu_content u with Some v => v | None => content n end.
Proof. destruct u as [[t|] [c|]]; reflexivity. Qed.

Lemma dict_update_frame n u :
  id (dict_update n (model_dump_exclude_unset u)) = id n /\
  created_at (dict_update n (model_dump_exclude_unset u)) = created_at n /\
  updated_at (dict_update n (model_dump_exclude_unset u)) = updated_at n.
Proof. destruct u as [[t|] [c|]]; repeat split. Qed.

Lemma model_dump_empty_iff u :
  model_dump_exclude_unset u = [] <-> supplies_no_field u.
Proof.
  unfold supplies_no_field, model_dump_exclude_unset.
  destruct u as [[t|] [c|]]; simpl; split;
    try discriminate; try tauto; intros [? ?]; discriminate.
Qed.

(** C8.  An update of an identifier that is not in the store returns the
    "not found" signal and leaves the note map, the counter and the backing
    file as they were. *)
Theorem update_note_not_found w note_id note_data now :
  PyDict.mem note_id (notes (db w)) = false ->
  update_note w note_id note_data now = (None, w).
Proof.
  unfold PyDict.mem, update_note. intros H.
  destruct (PyDict.get note_id (notes (db w))); [discriminate|reflexivity].
Qed.

Lemma update_note_not_found_witness :
  PyDict.mem 7 (notes (db one_note)) = false /\
  update_note one_note 7 {| nu_title := Some "x"%string; nu_content := None |} 2
  = (None, one_note).
Proof.
  split; [reflexivity|].
  apply (update_note_not_found one_note 7); reflexivity.
Defined.






(** ** Identifiers *)

Lemma run_ids ops : forall w,
  StronglySorted Z.lt (fst (run w ops)) /\
  Forall (fun i => next_id (db w) <= i < next_id (db (snd (run w ops))))
    (fst (run w ops)) /\
  next_id (db w) <= next_id (db (snd (run w ops))).
Proof.
  induction ops as [|[d now|i] ops IH]; intros w; simpl.
  - repeat split; [constructor|constructor|lia].
  - destruct (create_note w d now) as [r w'] eqn:Ec.
    unfold create_note in Ec. injection Ec as <- <-.
    match goal with
    | |- context [run ?w1 ops] => destruct (IH w1) as (Hs & Hall & Hle)
    end.
    destruct (run _ ops) as [ids w'']. simpl in *.
    repeat split; try lia.
    + constructor; [exact Hs|].
      eapply Forall_impl; [|exact Hall]. simpl; intros; lia.
    + constructor; [lia|].
      eapply Forall_impl; [|exact Hall]. simpl; intros; lia.
  - unfold delete_note.
    destruct (PyDict.mem i (notes (db w))); simpl; [|apply IH].
    match goal with
    | |- context [run ?w1 ops] => exact (IH w1)
    end.
Qed.

Lemma StronglySorted_lt_NoDup l : StronglySorted Z.lt l -> NoDup l.
Proof.
  induction 1 as [|x l Hs IH Hall]; constructor; [|exact IH].
  intros Hin. rewrite Forall_forall in Hall. specialize (Hall _ Hin). lia.
Qed.

(** C3.  Along every run of Create and Delete calls the identifiers that
    the Creates return are strictly increasing and never repeat, and the
    counter ends strictly above every one of them, deleted or not. *)
Theorem create_ids_increase w ops :
  StronglySorted Z.lt (fst (run w ops)) /\
  NoDup (fst (run w ops)) /\
  Forall (fun i => i < next_id (db (snd (run w ops)))) (fst (run w ops)).
Proof.
  destruct (run_ids ops w) as (Hs & Hall & _).
  repeat split; [exact Hs|now apply StronglySorted_lt_NoDup|].
  eapply Forall_impl; [|exact Hall]. simpl; intros; lia.
Qed.

Example run_with_deletes :
  fst (run fresh
         [Create {| nc_title := "A"; nc_content := "" |} 10;
          Delete 1;
          Create {| nc_title := "B"; nc_content := "" |} 11;
          Create {| nc_title := "C"; nc_content := "" |} 12;
          Delete 3; Delete 2;
          Create {| nc_title := "D"; nc_content := "" |} 13]) = [1; 2; 3; 4].
Proof. reflexivity. Qed.

(** ** Search *)

Lemma datetime_lt_answers (l : list NoteResponse) :
  PyList.answers nr_created_at nr_created_at datetime_lt l.
Proof. intros a b _ _. reflexivity. Qed.

(** [search_notes] never raises: it is the stable sort of the responses of
    the matching notes. *)
Lemma search_notes_sorted w query :
  search_notes w query =
  Ok (PyList.stable_sort_desc nr_created_at
        (map NoteResponse_of
           (filter (matches (PyStr.lower query))
              (PyDict.values (notes (db w)))))).
Proof.
  unfold search_notes.
  apply PyListFacts.sort_reverse_answers, datetime_lt_answers.
Qed.

Lemma matches_iff query n :
  matches (PyStr.lower query) n = true <->
  occurs_ignoring_case query (title n) \/
  occurs_ignoring_case query (content n).
Proof.
  unfold matches. rewrite orb_true_iff.
  now rewrite !PyStrFacts.contains_lower_iff.
Qed.

(** C7.  On text of code points below 256, a search returns the notes
    whose title or content contains the query as a case-insensitive
    substring, each of them once, and no other note.  Beyond these code
    points the search can miss a note that contains the query letter for
    letter: [str.lower] turns the capital sigma U+03A3 into U+03C3, and at
    the end of a word into U+03C2, so the query U+03A3 does not find the
    title U+0391 U+03A3. *)
Theorem search_notes_exact w query :
  exists found,
    search_notes w query = Ok found /\
    Permutation found
      (map NoteResponse_of
         (filter (matches (PyStr.lower query))
            (PyDict.values (notes (db w))))) /\
    (forall n,
       matches (PyStr.lower query) n = true <->
       occurs_ignoring_case query (title n) \/
       occurs_ignoring_case query (content n)) /\
    forall r,
      In r found <->
      exists n,
        In n (PyDict.values (notes (db w))) /\ r = NoteResponse_of n /\
        (occurs_ignoring_case query (title n) \/
         occurs_ignoring_case query (content n)).
Proof.
  eexists. split; [apply search_notes_sorted|].
  split; [apply PyListFacts.stable_sort_desc_perm|].
  split; [intros n; apply matches_iff|].
  intros r. split.
  - intros Hin.
    apply (Permutation_in _ (PyListFacts.stable_sort_desc_perm _ _)) in Hin.
    apply in_map_iff in Hin as (n & <- & Hn).
    apply filter_In in Hn as [Hn Hm].
    exists n. rewrite <- matches_iff. auto.
  - intros (n & Hn & -> & Hm).
    apply (Permutation_in _ (Permutation_sym (PyListFacts.stable_sort_desc_perm _ _))).
    apply in_map, filter_In. rewrite matches_iff. auto.
Qed.

(** Letters of Latin-1 are matched across case: the query of the one
    character 233 (small e with acute) finds the title of the one character
    201 (the capital), and the other way round. *)
Example search_notes_latin1 :
  PyStr.lower (String (ascii_of_nat 201) "") = String (ascii_of_nat 233) "" /\
  (forall q,
     In q [String (ascii_of_nat 233) ""; String (ascii_of_nat 201) ""] ->
     exists found,
       search_notes
         (snd (create_note fresh
                 {| nc_title := String (ascii_of_nat 201) "";
                    nc_content := "" |} 1)) q = Ok found /\
       map nr_id found = [1]) /\
  search_notes
    (snd (create_note fresh
            {| nc_title := String (ascii_of_nat 201) "";
               nc_content := "" |} 1)) "e" = Ok [].
Proof.
  split; [reflexivity|]. split; [|reflexivity].
  intros q [<-|[<-|[]]]; eexists; split; reflexivity.
Qed.

Example search_hello :
  let w1 := snd (create_note fresh
                   {| nc_title := "first"; nc_content := "Hello world" |} 1) in
  let w2 := snd (create_note w1
                   {| nc_title := "second"; nc_content := "goodbye" |} 2) in
  option_map (map nr_id)
    (match search_notes w2 "hello" with Ok l => Some l | Raise _ => None end)
  = Some [1].
Proof. reflexivity. Qed.

Lemma matches_empty n : matches (PyStr.lower "") n = true.
Proof. unfold matches. simpl PyStr.lower. now rewrite PyStrFacts.contains_empty. Qed.


(** ** Listing *)

Lemma comparable_answers l :
  comparable l = true -> PyList.answers created created_at stamp_lt l.
Proof.
  unfold comparable. rewrite orb_true_iff, !forallb_forall.
  intros [H|H] a b Ha Hb; specialize (H a Ha) as Ha'; specialize (H b Hb) as Hb';
    unfold created; destruct (created_at a), (created_at b);
    simpl in *; try discriminate; reflexivity.
Qed.

Lemma slice_map {A B} (f : A -> B) l start stop :
  PyList.slice (map f l) start stop = map f (PyList.slice l start stop).
Proof.
  unfold PyList.slice. now rewrite length_map, skipn_map, firstn_map.
Qed.

Lemma sorted_responses l :
  StronglySorted (PyList.descending created) l ->
  StronglySorted newest_first (map NoteResponse_of l).
Proof.
  induction 1 as [|n l Hs IH Hall]; simpl; constructor; [exact IH|].
  rewrite Forall_map. exact Hall.
Qed.

(** In a store whose stamps compare, [get_notes] returns a slice of the
    listing and the number of notes. *)
Lemma get_notes_comparable w skip limit :
  comparable (PyDict.values (notes (db w))) = true ->
  get_notes w skip limit =
  Ok (PyList.slice (listing w) skip (skip + limit),
      Z.of_nat (List.length (notes (db w)))).
Proof.
  intros H. unfold get_notes.
  rewrite (PyListFacts.sort_reverse_answers created) by now apply comparable_answers.
  simpl. unfold listing. rewrite slice_map.
  rewrite (Permutation_length (PyListFacts.stable_sort_desc_perm _ _)).
  unfold PyDict.values. now rewrite length_map.
Qed.

Lemma listing_sorted w : StronglySorted newest_first (listing w).
Proof. apply sorted_responses, PyListFacts.stable_sort_desc_sorted. Qed.

Lemma listing_stable w t :
  created_on t (listing w) =
  created_on t (map NoteResponse_of (PyDict.values (notes (db w)))).
Proof.
  unfold created_on, listing. rewrite !filter_map_swap. f_equal.
  apply (PyListFacts.stable_sort_desc_stable created).
Qed.




(** ** Restarting from the snapshot *)

Lemma int_str k : PyStr.int (PyStr.str k) = Some k.
Proof.
  unfold PyStr.int, PyStr.str.
  rewrite NilZero.isi.
  - simpl. now rewrite DecimalZ.of_to.
  - destruct k; simpl; try discriminate.
    intros [= H]. now apply Unsigned.to_uint_nonnil in H.
  - destruct k; simpl; try discriminate.
    intros [= H]. now apply Unsigned.to_uint_nonnil in H.
Qed.

Lemma dict_comprehension_snapshot (l : PyDict.dict note) : forall acc,
  NoDup (PyDict.keys (acc ++ l)) ->
  dict_comprehension
    (map (fun kv => (PyStr.str (fst kv), to_json (snd kv))) l) acc =
  Ok (acc ++ map (fun kv => (fst kv, reloaded (snd kv))) l).
Proof.
  induction l as [|[k n] l IH]; intros acc Hnd; simpl.
  - now rewrite app_nil_r.
  - rewrite int_str.
    assert (Hk : PyDict.mem k acc = false).
    { apply PyDictFacts.mem_false_not_in. intros Hin.
      unfold PyDict.keys in Hnd. rewrite map_app in Hnd. simpl in Hnd.
      apply NoDup_remove_2 in Hnd. apply Hnd, in_or_app. now left. }
    rewrite (PyDictFacts.set_absent _ _ _ Hk).
    rewrite IH; rewrite <- app_assoc; [reflexivity|].
    unfold PyDict.keys in *. rewrite !map_app in *. exact Hnd.
Qed.

(** What a restart gives back after a save: the same keys in the same order,
    the same counter, and every note with its stamps turned into texts. *)
Lemma restart_after_save w :
  configured (data_file (db w)) = true ->
  NoDup (PyDict.keys (notes (db w))) ->
  disk w = Parsed (snapshot (db w)) ->
  restart w =
  Ok {| db := with_contents (db w)
             (map (fun kv => (fst kv, reloaded (snd kv))) (notes (db w)))
             (next_id (db w));
        disk := disk w |}.
Proof.
  intros Hc Hnd Hdisk. unfold restart, __init__.
  rewrite Hc, Hdisk. simpl.
  rewrite (dict_comprehension_snapshot _ [] Hnd). reflexivity.
Qed.

(** A store whose stamps are all texts already comes back as it was. *)
Lemma restart_after_save_text w :
  configured (data_file (db w)) = true ->
  NoDup (PyDict.keys (notes (db w))) ->
  disk w = Parsed (snapshot (db w)) ->
  Forall (fun kv => reloaded (snd kv) = snd kv) (notes (db w)) ->
  restart w = Ok w.
Proof.
  intros Hc Hnd Hdisk Hall. rewrite restart_after_save by assumption.
  clear Hc Hnd Hdisk.
  f_equal. destruct w as [[p ns nxt] f]. simpl in *. f_equal.
  unfold with_contents; simpl. f_equal.
  induction Hall as [|[k n] l Hn _ IH]; [reflexivity|].
  simpl in *. now rewrite Hn, IH.
Qed.

(** ** Startup *)

(** C6.  Startup recovers from a file that is missing, empty or not JSON:
    the store comes up empty with the counter at 1, and a store that comes
    up in any other state was started on a configured file that parsed.
    It does not recover from every file that fails to parse: a file whose
    bytes are not text, a file whose JSON is not an object or whose
    ['notes'] is not an object, and a file with a key that is not an
    integer all make startup raise.  A file that holds the snapshot of a
    store is loaded: keys, order and counter as saved. *)
Theorem startup_recovery path :
  (__init__ path Missing = Ok (empty_store path) /\
   __init__ path Empty = Ok (empty_store path) /\
   __init__ path Malformed = Ok (empty_store path)) /\
  (forall ns nxt f,
     f = Missing \/ f = Empty \/ f = Malformed ->
     _load_from_file {| data_file := path; notes := ns; next_id := nxt |} f
     = Ok (empty_store path)) /\
  (forall f self,
     __init__ path f = Ok self -> self <> empty_store path ->
     configured path = true /\ exists d, f = Parsed d) /\
  (configured path = true ->
   __init__ path Undecodable = Raise UnicodeDecodeError /\
   __init__ path NotAnObject = Raise AttributeError /\
   __init__ path NotesNotAnObject = Raise AttributeError /\
   __init__ path (Parsed bad_key) = Raise ValueError /\
   forall self,
     NoDup (PyDict.keys (notes self)) ->
     __init__ path (Parsed (snapshot self)) =
     Ok {| data_file := path;
           notes := map (fun kv => (fst kv, reloaded (snd kv))) (notes self);
           next_id := next_id self |}).
Proof.
  unfold __init__, empty_store.
  split; [repeat split; destruct (configured path); reflexivity|].
  split; [intros ns nxt f [->|[->| ->]]; reflexivity|].
  split.
  - intros f self Hinit Hne.
    destruct (configured path); simpl in Hinit; [|congruence].
    split; [reflexivity|].
    destruct f as [| | |d| | |]; try (now exists d);
      unfold _load_from_file, with_contents in Hinit; simpl in Hinit;
      congruence.
  - intros Hc. rewrite Hc. simpl.
    do 4 (split; [reflexivity|]).
    intros self Hnd.
    rewrite (dict_comprehension_snapshot _ [] Hnd). reflexivity.
Qed.

Lemma NoteResponse_of_reloaded n :
  NoteResponse_of (reloaded n) = NoteResponse_of n.
Proof. reflexivity. Qed.

(** C5, at a store that holds one note.  The restarted store has the same
    counter and answers Get as before, but the note it holds is not the note
    that was saved: its ['created_at'] and ['updated_at'] are the texts that
    [json.dump] wrote, not datetimes.  The two stores then part ways: after
    one more Create the original lists its notes and the restarted one
    raises. *)
Theorem restart_turns_stamps_into_text :
  exists w,
    restart one_note = Ok w /\
    next_id (db w) = next_id (db one_note) /\
    get_note w 1 = get_note one_note 1 /\
    PyDict.get 1 (notes (db one_note)) =
      Some {| id := 1; title := "a"; content := "b";
              created_at := Datetime 1; updated_at := Datetime 1 |} /\
    PyDict.get 1 (notes (db w)) =
      Some {| id := 1; title := "a"; content := "b";
              created_at := Text 1; updated_at := Text 1 |} /\
    notes (db w) <> notes (db one_note) /\
    (exists page,
       get_notes
         (snd (create_note one_note {| nc_title := "c"; nc_content := "d" |} 2))
         0 10 = Ok (page, 2)) /\
    get_notes
      (snd (create_note w {| nc_title := "c"; nc_content := "d" |} 2)) 0 10
      = Raise TypeError.
Proof.
  eexists. split; [reflexivity|].
  do 4 (split; [reflexivity|]).
  split; [discriminate|].
  split; [eexists; reflexivity|reflexivity].
Qed.

(** C9, at a restarted store that then creates a note.  The map holds a
    text and a datetime under ['created_at'], the sort of [get_notes] raises
    [TypeError], and the listing returns neither a page nor a total; a search
    over the same store still answers. *)
Theorem get_notes_after_restart_raises :
  exists w,
    restart one_note = Ok w /\
    get_notes
      (snd (create_note w {| nc_title := "c"; nc_content := "d" |} 2)) 0 10
      = Raise TypeError /\
    exists found,
      search_notes
        (snd (create_note w {| nc_title := "c"; nc_content := "d" |} 2)) ""
        = Ok found /\
      map nr_id found = [2; 1].
Proof.
  eexists. split; [reflexivity|].
  split; [reflexivity|].
  eexists. split; reflexivity.
Qed.

(** In a store whose stamps compare, the listing reports the number of all
    notes whatever the page, and a page that starts at or past the end is
    empty. *)
Lemma get_notes_total w skip limit :
  comparable (PyDict.values (notes (db w))) = true ->
  exists page,
    get_notes w skip limit = Ok (page, Z.of_nat (List.length (notes (db w)))) /\
    (Z.of_nat (List.length (notes (db w))) <= skip -> page = []).
Proof.
  intros H. eexists. split; [now apply get_notes_comparable|].
  intros Hskip. apply PyListFacts.slice_beyond.
  unfold listing, PyDict.values. rewrite length_map.
  rewrite (Permutation_length (PyListFacts.stable_sort_desc_perm _ _)).
  now rewrite length_map.
Qed.

Example list_pages :
  let w := snd (run fresh
                  [Create {| nc_title := "A"; nc_content := "" |} 1;
                   Create {| nc_title := "B"; nc_content := "" |} 2;
                   Create {| nc_title := "C"; nc_content := "" |} 3]) in
  (match get_notes w 0 10 with
   | Ok (p, t) => Some (map nr_title p, t) | Raise _ => None end)
    = Some (["C"; "B"; "A"]%string, 3) /\
  (match get_notes w 2 10 with
   | Ok (p, t) => Some (map nr_title p, t) | Raise _ => None end)
    = Some (["A"]%string, 3) /\
  (match get_notes w 3 10 with
   | Ok (p, t) => Some (map nr_title p, t) | Raise _ => None end)
    = Some ([], 3).
Proof. repeat split. Qed.

(** * Further properties of the store *)

(** ** More on dicts *)

Module PyDictMore.
Import PyDict.
Section Dict.
Context {V : Type}.
Implicit Types (d : dict V) (k : Z) (v : V).

Lemma get_none_mem k d : get k d = None <-> mem k d = false.
Proof. unfold mem. destruct (get k d); split; congruence. Qed.

Lemma get_some_in k v d : get k d = Some v -> In (k, v) d.
Proof.
  induction d as [|[k' v'] d IH]; simpl; [discriminate|].
  destruct (k =? k') eqn:E.
  - apply Z.eqb_eq in E. intros [= ->]. subst. now left.
  - intros H. right. now apply IH.
Qed.

Lemma length_set_present k v d :
  mem k d = true -> List.length (set k v d) = List.length d.
Proof.
  intros H. rewrite <- (length_map fst), <- (length_map fst d).
  change (List.length (keys (set k v d)) = List.length (keys d)).
  now rewrite PyDictFacts.keys_set_present.
Qed.

(** Every entry of [set k v d] is the new one or an old one. *)
Lemma in_set k v d kv : In kv (set k v d) -> kv = (k, v) \/ In kv d.
Proof.
  induction d as [|[k' v'] d IH]; simpl.
  - intros [<-|[]]. now left.
  - destruct (k =? k') eqn:E; simpl.
    + apply Z.eqb_eq in E; subst k'. intros [<-|H]; auto.
    + intros [<-|H]; auto. destruct (IH H); auto.
Qed.

Lemma in_set_new k v d : In (k, v) (set k v d).
Proof.
  induction d as [|[k' v'] d IH]; simpl; [now left|].
  destruct (k =? k') eqn:E; simpl.
  - apply Z.eqb_eq in E; subst k'. now left.
  - now right.
Qed.

Lemma in_del k d kv : In kv (del k d) -> In kv d.
Proof.
  induction d as [|[k' v'] d IH]; simpl; [tauto|].
  destruct (k =? k'); simpl; [now right|].
  intros [<-|H]; auto.
Qed.

Lemma keys_set k v d :
  keys (set k v d) = if mem k d then keys d else keys d ++ [k].
Proof.
  destruct (mem k d) eqn:E.
  - now apply PyDictFacts.keys_set_present.
  - rewrite (PyDictFacts.set_absent _ _ _ E). unfold keys.
    now rewrite map_app.
Qed.

Lemma NoDup_keys_set k v d : NoDup (keys d) -> NoDup (keys (set k v d)).
Proof.
  intros H. rewrite keys_set. destruct (mem k d) eqn:E; [exact H|].
  apply PyDictFacts.mem_false_not_in in E.
  apply NoDup_rev in H. rewrite <- (rev_involutive (keys d ++ [k])).
  apply NoDup_rev. rewrite rev_app_distr. simpl.
  constructor; [now rewrite <- in_rev|exact H].
Qed.

Lemma in_keys_del k d k' : In k' (keys (del k d)) -> In k' (keys d).
Proof.
  unfold keys. rewrite !in_map_iff. intros (kv & <- & H).
  exists kv. split; [reflexivity|now apply in_del in H].
Qed.

Lemma NoDup_keys_del k d : NoDup (keys d) -> NoDup (keys (del k d)).
Proof.
  induction d as [|[k' v'] d IH]; simpl; [auto|].
  intros H. inversion H as [|? ? Hnin Hnd]; subst.
  destruct (k =? k'); simpl; [exact Hnd|].
  constructor; [|now apply IH].
  intros Hin. apply Hnin. now apply in_keys_del in Hin.
Qed.

(** With distinct keys, deleting a key leaves nothing under it. *)
Lemma get_del_same k d : NoDup (keys d) -> get k (del k d) = None.
Proof.
  induction d as [|[k' v'] d IH]; simpl; [reflexivity|].
  intros H. inversion H as [|? ? Hnin Hnd]; subst.
  destruct (k =? k') eqn:E; simpl.
  - apply Z.eqb_eq in E; subst k'.
    apply get_none_mem, PyDictFacts.mem_false_not_in. exact Hnin.
  - rewrite E. now apply IH.
Qed.

Lemma get_del_other k k' d : k' <> k -> get k' (del k d) = get k' d.
Proof.
  intros Hne. induction d as [|[k0 v0] d IH]; simpl; [reflexivity|].
  destruct (k =? k0) eqn:E; simpl.
  - apply Z.eqb_eq in E; subst k0.
    apply Z.eqb_neq in Hne. now rewrite Hne.
  - now rewrite IH.
Qed.

Lemma length_del_present k d :
  mem k d = true -> S (List.length (del k d)) = List.length d.
Proof.
  unfold mem. induction d as [|[k' v'] d IH]; simpl; [discriminate|].
  destruct (k =? k'); simpl; [reflexivity|].
  intros H. now rewrite IH.
Qed.

End Dict.
End PyDictMore.

(** ** Create, Get, Update, Delete *)

(** X1.  Whatever the store holds, the note that Create returns is the note
    that Get returns for its identifier: it carries the old counter as its
    identifier, the title and the content of the request, and the clock
    reading as both stamps. *)
Theorem create_then_get w note_data now :
  get_note (snd (create_note w note_data now))
    (nr_id (fst (create_note w note_data now)))
    = Some (fst (create_note w note_data now)) /\
  fst (create_note w note_data now) =
    {| nr_id := next_id (db w);
       nr_title := nc_title note_data;
       nr_content := nc_content note_data;
       nr_created_at := now;
       nr_updated_at := now |} /\
  next_id (db (snd (create_note w note_data now))) = next_id (db w) + 1.
Proof.
  unfold get_note, create_note. simpl.
  rewrite PyDictFacts.get_set_same. repeat split.
Qed.

Lemma update_note_get w note_id note_data now :
  get_note (snd (update_note w note_id note_data now)) note_id
  = fst (update_note w note_id note_data now).
Proof.
  unfold get_note, update_note.
  destruct (PyDict.get note_id (notes (db w))) as [n|] eqn:E.
  - destruct (model_dump_exclude_unset note_data); simpl.
    + now rewrite E.
    + now rewrite PyDictFacts.get_set_same.
  - simpl. now rewrite E.
Qed.


(** X3.  Create leaves every other note as it was; when the counter is not
    yet a key of the map, the new note goes last and the map grows by one. *)
Theorem create_note_frame w note_data now :
  (forall k, k <> next_id (db w) ->
     get_note (snd (create_note w note_data now)) k = get_note w k) /\
  (PyDict.mem (next_id (db w)) (notes (db w)) = false ->
     PyDict.keys (notes (db (snd (create_note w note_data now))))
       = PyDict.keys (notes (db w)) ++ [next_id (db w)] /\
     List.length (notes (db (snd (create_note w note_data now))))
       = S (List.length (notes (db w)))).
Proof.
  unfold get_note, create_note. simpl. split.
  - intros k Hk. now rewrite PyDictFacts.get_set_other.
  - intros Hmem. rewrite (PyDictFacts.set_absent _ _ _ Hmem).
    unfold PyDict.keys. rewrite map_app, length_app. simpl. split; [reflexivity|lia].
Qed.

(** X4.  Create does not check that the counter is free.  In a store whose
    counter names a note that exists, as after loading a file that has notes
    and no ['next_id'], Create replaces that note: the map keeps its size
    and its keys, and the old note is gone. *)
Theorem create_note_stale_counter w note_data now old :
  PyDict.get (next_id (db w)) (notes (db w)) = Some old ->
  List.length (notes (db (snd (create_note w note_data now))))
    = List.length (notes (db w)) /\
  PyDict.keys (notes (db (snd (create_note w note_data now))))
    = PyDict.keys (notes (db w)) /\
  get_note (snd (create_note w note_data now)) (next_id (db w))
    = Some (fst (create_note w note_data now)).
Proof.
  intros Hold.
  assert (Hmem : PyDict.mem (next_id (db w)) (notes (db w)) = true).
  { unfold PyDict.mem. now rewrite Hold. }
  unfold get_note, create_note. simpl.
  rewrite PyDictMore.length_set_present, PyDictFacts.keys_set_present by exact Hmem.
  rewrite PyDictFacts.get_set_same. repeat split.
Qed.

Lemma create_note_stale_counter_witness :
  __init__ (Some "data/notes.json"%string) (Parsed no_counter)
    = Ok (db stale) /\
  next_id (db stale) = 1 /\
  PyDict.get (next_id (db stale)) (notes (db stale)) =
    Some {| id := 1; title := "a"; content := "b";
            created_at := Text 1; updated_at := Text 1 |} /\
  get_note
    (snd (create_note stale {| nc_title := "new"; nc_content := "" |} 9)) 1
  = Some {| nr_id := 1; nr_title := "new"; nr_content := "";
            nr_created_at := 9; nr_updated_at := 9 |} /\
  List.length
    (notes (db (snd (create_note stale
                       {| nc_title := "new"; nc_content := "" |} 9))))
  = 2%nat.
Proof.
  split; [reflexivity|]. split; [reflexivity|]. split; [reflexivity|].
  destruct (create_note_stale_counter stale
              {| nc_title := "new"; nc_content := "" |} 9 _ eq_refl)
    as (Hlen & _ & Hget).
  split; [exact Hget|exact Hlen].
Defined.



(** ** What every sequence of calls keeps *)

Lemma Forall_set {V} (P : Z * V -> Prop) k v (d : PyDict.dict V) :
  Forall P d -> P (k, v) -> Forall P (PyDict.set k v d).
Proof.
  rewrite !Forall_forall. intros Hd Hv kv Hin.
  apply PyDictMore.in_set in Hin as [->|Hin]; auto.
Qed.

Lemma Forall_del {V} (P : Z * V -> Prop) k (d : PyDict.dict V) :
  Forall P d -> Forall P (PyDict.del k d).
Proof.
  rewrite !Forall_forall. intros Hd kv Hin.
  apply PyDictMore.in_del in Hin. auto.
Qed.

Lemma Forall_keys {V} (P : Z -> Prop) (d : PyDict.dict V) :
  Forall P (PyDict.keys d) <-> Forall (fun kv => P (fst kv)) d.
Proof. unfold PyDict.keys. now rewrite Forall_map. Qed.

Lemma Forall_values {V} (P : V -> Prop) (d : PyDict.dict V) :
  Forall P (PyDict.values d) <-> Forall (fun kv => P (snd kv)) d.
Proof. unfold PyDict.values. now rewrite Forall_map. Qed.

(** The note that [update_note] stores keeps its ['id'] and
    ['created_at']. *)
Lemma updated_note_frame n u now :
  id (set_updated_at (dict_update n u) now) = id n /\
  created_at (set_updated_at (dict_update n u) now) = created_at n /\
  updated_at (set_updated_at (dict_update n u) now) = Datetime now.
Proof.
  simpl. revert n. induction u as [|[[|] v] u IH]; intros n; simpl.
  - auto.
  - destruct (IH (set_field n (f_title, v))) as (H1 & H2 & _). auto.
  - destruct (IH (set_field n (f_content, v))) as (H1 & H2 & _). auto.
Qed.

Lemma consistent_exec w c : consistent (db w) -> consistent (db (exec w c)).
Proof.
  intros (Hnd & Hlt & Hid). destruct c as [d now|i u now|i]; simpl.
  - unfold consistent; simpl. split; [now apply PyDictMore.NoDup_keys_set|].
    split.
    + apply Forall_keys, Forall_set; simpl; [|lia].
      apply Forall_keys in Hlt. eapply Forall_impl; [|exact Hlt].
      simpl; intros; lia.
    + now apply Forall_set.
  - unfold update_note.
    destruct (PyDict.get i (notes (db w))) as [n|] eqn:E;
      [|now repeat split].
    destruct (model_dump_exclude_unset u) as [|fv rest] eqn:Eu;
      [now repeat split|].
    unfold consistent; simpl.
    split; [now apply PyDictMore.NoDup_keys_set|]. split.
    + rewrite PyDictFacts.keys_set_present; [exact Hlt|].
      unfold PyDict.mem. now rewrite E.
    + apply Forall_set; [exact Hid|].
      pose proof (proj1 (updated_note_frame n (fv :: rest) now)) as Hi.
      simpl in Hi |- *. rewrite Hi.
      apply PyDictMore.get_some_in in E.
      rewrite Forall_forall in Hid. exact (Hid _ E).
  - unfold delete_note.
    destruct (PyDict.mem i (notes (db w))); [|now repeat split].
    unfold consistent; simpl.
    split; [now apply PyDictMore.NoDup_keys_del|]. split.
    + apply Forall_keys, Forall_del.
      exact (proj1 (Forall_keys _ _) Hlt).
    + now apply Forall_del.
Qed.

Lemma consistent_execs cs : forall w,
  consistent (db w) -> consistent (db (execs w cs)).
Proof.
  induction cs as [|c cs IH]; intros w H; [exact H|].
  simpl. apply IH. now apply consistent_exec.
Qed.

Lemma consistent_empty path : consistent (empty_store path).
Proof. repeat split; constructor. Qed.

(** X6.  In every store reached from an empty one by Create, Update and
    Delete calls the keys of the map are distinct and below the counter and
    each note carries its key as its ['id']: Get answers a request for [k]
    with a note whose identifier is [k]. *)
Theorem reachable_consistent path f cs :
  consistent (db (execs {| db := empty_store path; disk := f |} cs)) /\
  forall k r,
    get_note (execs {| db := empty_store path; disk := f |} cs) k = Some r ->
    nr_id r = k /\ k < next_id (db (execs {| db := empty_store path; disk := f |} cs)).
Proof.
  assert (H : consistent (db (execs {| db := empty_store path; disk := f |} cs)))
    by apply consistent_execs, consistent_empty.
  split; [exact H|].
  destruct H as (_ & Hlt & Hid). unfold get_note. intros k r Hget.
  destruct (PyDict.get k _) as [n|] eqn:E; [|discriminate].
  injection Hget as <-. apply PyDictMore.get_some_in in E.
  rewrite Forall_forall in Hid. rewrite Forall_keys, Forall_forall in Hlt.
  split; [exact (Hid _ E)|exact (Hlt _ E)].
Qed.

(** ** The backing file *)

Lemma exec_data_file w c : data_file (db (exec w c)) = data_file (db w).
Proof.
  destruct c as [d now|i u now|i]; simpl; [reflexivity| |].
  - unfold update_note. destruct (PyDict.get i (notes (db w))); [|reflexivity].
    now destruct (model_dump_exclude_unset u).
  - unfold delete_note. now destruct (PyDict.mem i (notes (db w))).
Qed.

Lemma exec_sync w c :
  configured (data_file (db w)) = true ->
  exec w c = w \/ in_sync (exec w c).
Proof.
  intros Hc. unfold in_sync.
  destruct c as [d now|i u now|i]; simpl.
  - right. unfold _save_to_file. simpl. now rewrite Hc.
  - unfold update_note. destruct (PyDict.get i (notes (db w))); [|now left].
    destruct (model_dump_exclude_unset u); [now left|right].
    simpl. unfold _save_to_file. simpl. now rewrite Hc.
  - unfold delete_note. destruct (PyDict.mem i (notes (db w))); [right|now left].
    simpl. unfold _save_to_file. simpl. now rewrite Hc.
Qed.

(** The map after a checked call is the map after the call. *)
Lemma create_note_checked_db w d now :
  db (snd (create_note_checked w d now)) = db (snd (create_note w d now)).
Proof.
  unfold create_note_checked.
  destruct (create_note w d now) as [r w'].
  now destruct (save_raises (db w)).
Qed.

Lemma update_note_checked_db w i u now :
  db (snd (update_note_checked w i u now)) = db (snd (update_note w i u now)).
Proof.
  unfold update_note_checked.
  destruct (update_note w i u now) as [r w'].
  destruct (PyDict.get i (notes (db w))); [|reflexivity].
  destruct (model_dump_exclude_unset u); [reflexivity|].
  now destruct (save_raises (db w)).
Qed.

Lemma delete_note_checked_db w i :
  db (snd (delete_note_checked w i)) = db (snd (delete_note w i)).
Proof.
  unfold delete_note_checked.
  destruct (delete_note w i) as [b w'].
  now destruct (PyDict.mem i (notes (db w)) && save_raises (db w)).
Qed.

Lemma exec_checked_db w c : db (exec_checked w c) = db (exec w c).
Proof.
  destruct c; simpl;
    [apply create_note_checked_db | apply update_note_checked_db
    | apply delete_note_checked_db].
Qed.

(** The map and the counter after a call depend on the store only. *)
Lemma exec_db_ext w1 w2 c : db w1 = db w2 -> db (exec w1 c) = db (exec w2 c).
Proof.
  destruct w1 as [d1 f1], w2 as [d2 f2]. simpl. intros <-.
  destruct c as [d now|i u now|i]; simpl; [reflexivity| |].
  - unfold update_note. simpl.
    destruct (PyDict.get i (notes d1)); [|reflexivity].
    now destruct (model_dump_exclude_unset u).
  - unfold delete_note. simpl. now destruct (PyDict.mem i (notes d1)).
Qed.

Lemma save_raises_exec w c : save_raises (db (exec w c)) = save_raises (db w).
Proof. unfold save_raises. now rewrite exec_data_file. Qed.

(** A call whose save does not raise is the call. *)
Lemma exec_checked_ok w c :
  save_raises (db w) = false -> exec_checked w c = exec w c.
Proof.
  intros H. destruct c as [d now|i u now|i]; cbn [exec exec_checked].
  - unfold create_note_checked.
    destruct (create_note w d now). now rewrite H.
  - unfold update_note_checked.
    destruct (update_note w i u now).
    destruct (PyDict.get i (notes (db w))); [|reflexivity].
    destruct (model_dump_exclude_unset u); [reflexivity|]. now rewrite H.
  - unfold delete_note_checked.
    destruct (delete_note w i). now rewrite H, andb_false_r.
Qed.

(** A call whose save raises leaves the file as it was. *)
Lemma exec_checked_disk w c :
  save_raises (db w) = true -> disk (exec_checked w c) = disk w.
Proof.
  intros H. destruct c as [d now|i u now|i]; cbn [exec_checked].
  - unfold create_note_checked.
    destruct (create_note w d now). now rewrite H.
  - unfold update_note_checked, update_note.
    destruct (PyDict.get i (notes (db w))); [|reflexivity].
    destruct (model_dump_exclude_unset u); [reflexivity|]. now rewrite H.
  - unfold delete_note_checked, delete_note.
    destruct (PyDict.mem i (notes (db w))); [|reflexivity]. now rewrite H.
Qed.

Lemma execs_checked_raises cs : forall w1 w2,
  db w1 = db w2 ->
  save_raises (db w1) = true ->
  db (execs_checked w1 cs) = db (execs w2 cs) /\
  disk (execs_checked w1 cs) = disk w1.
Proof.
  unfold execs_checked, execs.
  induction cs as [|c cs IH]; intros w1 w2 Hdb Hs; simpl; [now split|].
  destruct (IH (exec_checked w1 c) (exec w2 c)) as [H1 H2].
  - rewrite exec_checked_db. now apply exec_db_ext.
  - now rewrite exec_checked_db, save_raises_exec.
  - split; [exact H1|]. rewrite H2. now apply exec_checked_disk.
Qed.

Lemma execs_checked_ok cs : forall w,
  save_raises (db w) = false -> execs_checked w cs = execs w cs.
Proof.
  unfold execs_checked, execs.
  induction cs as [|c cs IH]; intros w Hs; simpl; [reflexivity|].
  rewrite (exec_checked_ok w c Hs). apply IH. now rewrite save_raises_exec.
Qed.

Lemma execs_sync cs : forall w,
  configured (data_file (db w)) = true ->
  execs w cs = w \/ in_sync (execs w cs).
Proof.
  induction cs as [|c cs IH]; intros w Hc; [now left|].
  simpl. destruct (IH (exec w c)) as [Hsame|Hsync].
  - now rewrite exec_data_file.
  - unfold execs in Hsame |- *. simpl. rewrite Hsame. now apply exec_sync.
  - now right.
Qed.

(** X7.  In a store with a backing file whose path has a directory part,
    no call raises from the save, and after any sequence of Create, Update
    (of string fields) and Delete calls either no call has changed anything
    yet, or the file holds exactly the snapshot of the store as it is now:
    the file never lags behind the map.  When the path has no directory
    part every save raises: the calls change the map and the counter all
    the same, and the file is never written. *)
Theorem file_follows_store w cs :
  configured (data_file (db w)) = true ->
  (save_raises (db w) = false ->
   execs_checked w cs = execs w cs /\
   (execs_checked w cs = w \/ in_sync (execs_checked w cs))) /\
  (save_raises (db w) = true ->
   db (execs_checked w cs) = db (execs w cs) /\
   disk (execs_checked w cs) = disk w).
Proof.
  intros Hc. split; intros Hs.
  - rewrite (execs_checked_ok cs w Hs). split; [reflexivity|].
    now apply execs_sync.
  - now apply execs_checked_raises.
Qed.

Lemma file_follows_store_witness :
  (configured (data_file (db configured_empty)) = true /\
   save_raises (db configured_empty) = false /\
   in_sync (execs_checked configured_empty
              [CallDelete 4;
               CallCreate {| nc_title := "a"; nc_content := "b" |} 1;
               CallUpdate 1
                 {| nu_title := None; nu_content := Some "c"%string |} 2;
               CallUpdate 1 {| nu_title := None; nu_content := None |} 3])) /\
  (configured (data_file (db bare_name)) = true /\
   save_raises (db bare_name) = true /\
   disk (execs_checked bare_name
           [CallCreate {| nc_title := "a"; nc_content := "b" |} 1]) = Missing /\
   PyDict.keys
     (notes (db (execs_checked bare_name
                   [CallCreate {| nc_title := "a"; nc_content := "b" |} 1])))
   = [1]).
Proof.
  split.
  - split; [reflexivity|]. split; [reflexivity|].
    destruct (proj1 (file_follows_store configured_empty
                [CallDelete 4;
                 CallCreate {| nc_title := "a"; nc_content := "b" |} 1;
                 CallUpdate 1
                   {| nu_title := None; nu_content := Some "c"%string |} 2;
                 CallUpdate 1 {| nu_title := None; nu_content := None |} 3]
                eq_refl) eq_refl) as [_ [H|H]]; [discriminate H|exact H].
  - split; [reflexivity|]. split; [reflexivity|].
    destruct (proj2 (file_follows_store bare_name
                [CallCreate {| nc_title := "a"; nc_content := "b" |} 1]
                eq_refl) eq_refl) as [Hdb Hdisk].
    split; [exact Hdisk|]. rewrite Hdb. reflexivity.
Defined.

(** X8.  A store without a backing file never touches the file system:
    whatever calls it serves, the file is as it was. *)
Theorem no_data_file_no_write w cs :
  configured (data_file (db w)) = false ->
  disk (execs w cs) = disk w.
Proof.
  revert w. induction cs as [|c cs IH]; intros w Hc; [reflexivity|].
  simpl. rewrite IH by now rewrite exec_data_file.
  destruct c as [d now|i u now|i]; simpl.
  - unfold _save_to_file. simpl. now rewrite Hc.
  - unfold update_note. destruct (PyDict.get i (notes (db w))); [|reflexivity].
    destruct (model_dump_exclude_unset u); [reflexivity|].
    simpl. unfold _save_to_file. simpl. now rewrite Hc.
  - unfold delete_note. destruct (PyDict.mem i (notes (db w))); [|reflexivity].
    simpl. unfold _save_to_file. simpl. now rewrite Hc.
Qed.

Lemma no_data_file_no_write_witness :
  configured (data_file (db fresh)) = false /\
  disk (execs fresh
          [CallCreate {| nc_title := "a"; nc_content := "b" |} 1;
           CallDelete 1]) = Missing.
Proof.
  split; [reflexivity|].
  apply (no_data_file_no_write fresh
           [CallCreate {| nc_title := "a"; nc_content := "b" |} 1;
            CallDelete 1]).
  reflexivity.
Defined.

(** ** Restarting, as the callers see it *)

Lemma insert_desc_map {A B} (rank : B -> Z) (f : A -> B) x l :
  PyList.insert_desc rank (f x) (map f l) =
  map f (PyList.insert_desc (fun a => rank (f a)) x l).
Proof.
  induction l as [|y l IH]; simpl; [reflexivity|].
  destruct (rank (f x) <? rank (f y)); simpl; [now rewrite IH|reflexivity].
Qed.

Lemma stable_sort_desc_map {A B} (rank : B -> Z) (f : A -> B) l :
  PyList.stable_sort_desc rank (map f l) =
  map f (PyList.stable_sort_desc (fun a => rank (f a)) l).
Proof.
  induction l as [|x l IH]; simpl; [reflexivity|].
  now rewrite IH, insert_desc_map.
Qed.

Lemma get_map_reloaded k (d : PyDict.dict note) :
  PyDict.get k (map (fun kv => (fst kv, reloaded (snd kv))) d) =
  option_map reloaded (PyDict.get k d).
Proof.
  induction d as [|[k' n] d IH]; simpl; [reflexivity|].
  now destruct (k =? k').
Qed.

Lemma values_map_reloaded (d : PyDict.dict note) :
  PyDict.values (map (fun kv => (fst kv, reloaded (snd kv))) d) =
  map reloaded (PyDict.values d).
Proof. unfold PyDict.values. rewrite !map_map. reflexivity. Qed.

Lemma comparable_reloaded l : comparable (map reloaded l) = true.
Proof.
  unfold comparable. apply orb_true_iff. right.
  apply forallb_forall. intros n Hn.
  apply in_map_iff in Hn as (m & <- & _). reflexivity.
Qed.

Lemma responses_reloaded l :
  map NoteResponse_of (map reloaded l) = map NoteResponse_of l.
Proof. rewrite map_map. apply map_ext. intros n. reflexivity. Qed.



(** ** Pages *)

Lemma firstn_add {A} (a b : nat) : forall l : list A,
  firstn (a + b) l = firstn a l ++ firstn b (skipn a l).
Proof.
  induction a as [|a IH]; intros l; [reflexivity|].
  destruct l as [|x l]; simpl.
  - now rewrite firstn_nil.
  - now rewrite IH.
Qed.

Lemma listing_length w :
  List.length (listing w) = List.length (notes (db w)).
Proof.
  unfold listing, PyDict.values. rewrite length_map.
  rewrite (Permutation_length (PyListFacts.stable_sort_desc_perm _ _)).
  apply length_map.
Qed.

(** What [get_notes] returns for bounds that are not negative: [limit]
    notes of the listing after the first [skip]. *)
Lemma get_notes_nonneg w skip limit :
  comparable (PyDict.values (notes (db w))) = true ->
  0 <= skip -> 0 <= limit ->
  get_notes w skip limit =
  Ok (firstn (Z.to_nat limit) (skipn (Z.to_nat skip) (listing w)),
      Z.of_nat (List.length (notes (db w)))).
Proof.
  intros Hc Hs Hl. rewrite get_notes_comparable by exact Hc.
  rewrite PyListFacts.slice_nonneg by lia.
  now replace (skip + limit - skip) with limit by lia.
Qed.









(** ** Stamps along a run *)

Lemma stamps_ordered_execs cs : forall w t,
  Forall (fun kv => created (snd kv) <= instant (updated_at (snd kv)) /\
                    created (snd kv) <= t) (notes (db w)) ->
  Forall (fun now => t <= now) (readings cs) ->
  StronglySorted Z.le (readings cs) ->
  Forall (fun kv => created (snd kv) <= instant (updated_at (snd kv)))
    (notes (db (execs w cs))).
Proof.
  induction cs as [|c cs IH]; intros w t Hw Ht Hs.
  - simpl. eapply Forall_impl; [|exact Hw]. simpl. tauto.
  - assert (Hmono : forall now, t <= now ->
              Forall (fun kv => created (snd kv) <= instant (updated_at (snd kv)) /\
                                created (snd kv) <= now) (notes (db w))).
    { intros now Hle. eapply Forall_impl; [|exact Hw]. simpl. intros; lia. }
    destruct c as [d now|i u now|i]; simpl in Ht, Hs |- *.
    + inversion Ht as [|? ? Hnow _]; subst.
      inversion Hs as [|? ? Hs' Hall]; subst.
      apply (IH _ now); [|exact Hall|exact Hs'].
      simpl. apply Forall_set; [now apply Hmono|].
      unfold created. simpl. lia.
    + inversion Ht as [|? ? Hnow _]; subst.
      inversion Hs as [|? ? Hs' Hall]; subst.
      apply (IH _ now); [|exact Hall|exact Hs'].
      unfold update_note.
      destruct (PyDict.get i (notes (db w))) as [n|] eqn:E;
        [|now apply Hmono].
      destruct (model_dump_exclude_unset u) as [|fv rest];
        [now apply Hmono|].
      simpl. apply Forall_set; [now apply Hmono|].
      destruct (updated_note_frame n (fv :: rest) now) as (_ & Hc & _).
      unfold created. simpl in Hc |- *. rewrite Hc.
      apply PyDictMore.get_some_in in E.
      rewrite Forall_forall in Hw. specialize (Hw _ E).
      unfold created in Hw. simpl in Hw. lia.
    + apply (IH _ t); [|exact Ht|exact Hs].
      unfold delete_note. destruct (PyDict.mem i (notes (db w))); [|exact Hw].
      simpl. now apply Forall_del.
Qed.

(** X14.  When the clock does not step back between the calls, every note
    of a store that started empty has [updated_at] at or after
    [created_at]. *)
Theorem updated_not_before_created path f cs :
  StronglySorted Z.le (readings cs) ->
  Forall (fun n => instant (created_at n) <= instant (updated_at n))
    (PyDict.values
       (notes (db (execs {| db := empty_store path; disk := f |} cs)))).
Proof.
  intros Hs. apply Forall_values.
  apply (stamps_ordered_execs cs _ (hd 0 (readings cs))); [constructor| |exact Hs].
  destruct (readings cs) as [|r rs]; [constructor|].
  inversion Hs; subst. constructor; [simpl; lia|assumption].
Qed.

Lemma updated_not_before_created_witness :
  StronglySorted Z.le
    (readings
       [CallCreate {| nc_title := "a"; nc_content := "b" |} 3;
        CallUpdate 1 {| nu_title := Some "c"%string; nu_content := None |} 3;
        CallUpdate 1 {| nu_title := None; nu_content := Some "d"%string |} 8]) /\
  Forall (fun n => instant (created_at n) <= instant (updated_at n))
    (PyDict.values
       (notes (db (execs {| db := empty_store None; disk := Missing |}
          [CallCreate {| nc_title := "a"; nc_content := "b" |} 3;
           CallUpdate 1 {| nu_title := Some "c"%string; nu_content := None |} 3;
           CallUpdate 1 {| nu_title := None; nu_content := Some "d"%string |} 8])))).
Proof.
  assert (Hs : StronglySorted Z.le [3; 3; 8]).
  { repeat constructor; lia. }
  split; [exact Hs|].
  exact (updated_not_before_created None Missing
           [CallCreate {| nc_title := "a"; nc_content := "b" |} 3;
            CallUpdate 1 {| nu_title := Some "c"%string; nu_content := None |} 3;
            CallUpdate 1 {| nu_title := None; nu_content := Some "d"%string |} 8]
           Hs).
Defined.

(** ** The adapter *)

Lemma create_note_titles w d now :
  title_ok (nc_title d) = true ->
  Forall (fun kv => title_ok (title (snd kv)) = true) (notes (db w)) ->
  Forall (fun kv => title_ok (title (snd kv)) = true)
    (notes (db (snd (create_note w d now)))).
Proof. intros Hd Hw. simpl. now apply Forall_set. Qed.

Lemma update_note_titles w i u now :
  match nu_title u with Some t => title_ok t | None => true end = true ->
  Forall (fun kv => title_ok (title (snd kv)) = true) (notes (db w)) ->
  Forall (fun kv => title_ok (title (snd kv)) = true)
    (notes (db (snd (update_note w i u now)))).
Proof.
  intros Hu Hw. unfold update_note.
  destruct (PyDict.get i (notes (db w))) as [n|] eqn:E; [|exact Hw].
  destruct (model_dump_exclude_unset u) as [|fv rest] eqn:Eu; [exact Hw|].
  cbn [snd db notes with_notes with_contents].
  apply Forall_set; [exact Hw|]. cbn [snd].
  rewrite <- Eu. unfold set_updated_at. cbn [title].
  rewrite dict_update_title.
  destruct (nu_title u) as [t0|]; [exact Hu|].
  apply PyDictMore.get_some_in in E.
  rewrite Forall_forall in Hw. exact (Hw _ E).
Qed.

Lemma delete_note_titles w i :
  Forall (fun kv => title_ok (title (snd kv)) = true) (notes (db w)) ->
  Forall (fun kv => title_ok (title (snd kv)) = true)
    (notes (db (snd (delete_note w i)))).
Proof.
  intros Hw. unfold delete_note.
  destruct (PyDict.mem i (notes (db w))); [|exact Hw].
  simpl. now apply Forall_del.
Qed.

Lemma to_NoteUpdate_title t c u :
  to_NoteUpdate t c = Some u ->
  match t with Str t0 => title_ok t0 | _ => true end = true ->
  match nu_title u with Some t0 => title_ok t0 | None => true end = true.
Proof. destruct t, c; simpl; intros [= <-]; auto. Qed.

Lemma serve_titles w r w' :
  snd (serve w r) = Some w' ->
  Forall (fun kv => title_ok (title (snd kv)) = true) (notes (db w)) ->
  Forall (fun kv => title_ok (title (snd kv)) = true) (notes (db w')).
Proof.
  intros Hs Hw. destruct r as [t c now|i t c now|i]; simpl in Hs.
  - injection Hs as <-. unfold router_create_note.
    destruct (title_ok t) eqn:Et; [|exact Hw].
    pose proof (create_note_checked_db w
                  {| nc_title := t; nc_content := c |} now) as Hdb.
    destruct (create_note_checked w _ now) as [[r|e] w1]; cbn [snd] in *;
      rewrite Hdb; now apply create_note_titles.
  - unfold router_update_note, update_note_body in Hs.
    destruct (match t with Str t0 => title_ok t0 | _ => true end) eqn:Et;
      [|injection Hs as <-; exact Hw].
    destruct (to_NoteUpdate t c) as [u|] eqn:Eu.
    + pose proof (update_note_checked_db w i u now) as Hdb.
      destruct (update_note_checked w i u now) as [[[r|]|e] w1];
        cbn [snd] in *; injection Hs as <-; rewrite Hdb;
        apply update_note_titles; try exact Hw;
        now apply (to_NoteUpdate_title t c).
    + destruct (PyDict.mem i (notes (db w))); simpl in Hs; [discriminate|].
      injection Hs as <-. exact Hw.
  - injection Hs as <-. unfold router_delete_note.
    pose proof (delete_note_checked_db w i) as Hdb.
    destruct (delete_note_checked w i) as [[[|]|e] w1]; cbn [snd] in *;
      rewrite Hdb; now apply delete_note_titles.
Qed.

(** X15.  In every store that POST, PUT and DELETE requests reach from an
    empty one, and for which the model has a value, every stored title has
    between 1 and 200 characters.  (The one request after which the model
    has no value is a PUT that sets a field to [null] on a note that
    exists: the code then stores [None] and answers 500.) *)
Theorem served_titles_valid path f rs w' :
  serves {| db := empty_store path; disk := f |} rs = Some w' ->
  Forall (fun n => title_ok (title n) = true)
    (PyDict.values (notes (db w'))).
Proof.
  intros Hs. apply Forall_values.
  assert (H : forall w,
             serves w rs = Some w' ->
             Forall (fun kv => title_ok (title (snd kv)) = true) (notes (db w)) ->
             Forall (fun kv => title_ok (title (snd kv)) = true)
               (notes (db w'))).
  { clear Hs. induction rs as [|r rs IH]; intros w Hs Hw; simpl in Hs.
    - now injection Hs as <-.
    - destruct (snd (serve w r)) as [w1|] eqn:E; [|discriminate].
      apply (IH w1 Hs). now apply (serve_titles w r). }
  apply (H _ Hs). constructor.
Qed.

Lemma served_titles_valid_witness :
  exists w',
    serves {| db := empty_store (Some "data/notes.json"%string);
              disk := Missing |}
      [Post "" "x" 1; Post "shopping" "milk" 2;
       Put 1 (Str "list") Absent 3; Put 7 Null Absent 4; DeleteRequest 9]
    = Some w' /\
    map title (PyDict.values (notes (db w'))) = ["list"%string] /\
    Forall (fun n => title_ok (title n) = true)
      (PyDict.values (notes (db w'))).
Proof.
  eexists. split; [reflexivity|]. split; [reflexivity|].
  exact (served_titles_valid (Some "data/notes.json"%string) Missing
           [Post "" "x" 1; Post "shopping" "milk" 2;
            Put 1 (Str "list") Absent 3; Put 7 Null Absent 4; DeleteRequest 9]
           _ eq_refl).
Defined.


(** ** Search after Create *)



(** ** Startup of the application *)

(** X18.  The application's startup, which sets the path on the global
    store and loads without asking whether the file exists, builds the
    store that [InMemoryDatabase(data_file)] builds; with no path it leaves
    the empty store alone. *)
Theorem startup_as_init path f :
  (configured path = true -> startup path f = __init__ path f) /\
  (configured path = false -> startup path f = Ok (empty_store None)).
Proof.
  unfold startup, __init__. split; intros Hc; rewrite Hc; [|reflexivity].
  destruct f; reflexivity.
Qed.

(** ** Update and Delete in the listing *)

Lemma insert_desc_related {A} (rank : A -> Z) (R : A -> A -> Prop) x y l1 l2 :
  (forall a b, R a b -> rank a = rank b) ->
  R x y -> Forall2 R l1 l2 ->
  Forall2 R (PyList.insert_desc rank x l1) (PyList.insert_desc rank y l2).
Proof.
  intros HR Hxy H. induction H as [|a b l1 l2 Hab H IH]; simpl.
  - repeat constructor. exact Hxy.
  - rewrite (HR _ _ Hxy), (HR _ _ Hab).
    destruct (rank y <? rank b); repeat constructor; assumption.
Qed.

Lemma stable_sort_desc_related {A} (rank : A -> Z) (R : A -> A -> Prop) l1 l2 :
  (forall a b, R a b -> rank a = rank b) ->
  Forall2 R l1 l2 ->
  Forall2 R (PyList.stable_sort_desc rank l1) (PyList.stable_sort_desc rank l2).
Proof.
  intros HR H. induction H; simpl; [constructor|].
  now apply insert_desc_related.
Qed.

Lemma values_set_related (R : note -> note -> Prop) k n n' (d : PyDict.dict note) :
  (forall a, R a a) -> PyDict.get k d = Some n -> R n' n ->
  Forall2 R (PyDict.values (PyDict.set k n' d)) (PyDict.values d).
Proof.
  intros Hrefl. induction d as [|[k0 v0] d IH]; simpl; [discriminate|].
  destruct (k =? k0); simpl.
  - intros [= ->] HR. constructor; [exact HR|].
    clear -Hrefl. induction d; simpl; constructor; auto.
  - intros Hget HR. constructor; [apply Hrefl|]. now apply IH.
Qed.

Lemma comparable_related l1 l2 :
  Forall2 (fun a b => created_at a = created_at b /\ id a = id b) l1 l2 ->
  comparable l1 = comparable l2.
Proof.
  intros H. unfold comparable.
  f_equal; induction H as [|a b l1 l2 [E _] _ IH]; simpl;
    try reflexivity; now rewrite E, IH.
Qed.

Lemma ids_related l1 l2 :
  Forall2 (fun a b => created_at a = created_at b /\ id a = id b) l1 l2 ->
  map nr_id (map NoteResponse_of l1) = map nr_id (map NoteResponse_of l2) /\
  map nr_created_at (map NoteResponse_of l1)
    = map nr_created_at (map NoteResponse_of l2).
Proof.
  induction 1 as [|a b l1 l2 [Hc Hi] _ [IH1 IH2]]; simpl; [auto|].
  now rewrite Hc, Hi, IH1, IH2.
Qed.

(** The notes after an Update, one for one against the notes before: the
    same ['created_at'] and the same ['id'] at every place. *)
Lemma update_note_related w i u now :
  Forall2 (fun a b => created_at a = created_at b /\ id a = id b)
    (PyDict.values (notes (db (snd (update_note w i u now)))))
    (PyDict.values (notes (db w))).
Proof.
  assert (Hrefl : forall l : list note,
            Forall2 (fun a b => created_at a = created_at b /\ id a = id b) l l).
  { induction l; constructor; auto. }
  unfold update_note.
  destruct (PyDict.get i (notes (db w))) as [n|] eqn:E; [|apply Hrefl].
  destruct (model_dump_exclude_unset u) as [|fv rest]; [apply Hrefl|].
  cbn [snd db notes with_notes with_contents].
  apply (values_set_related _ _ n); [auto|exact E|].
  destruct (updated_note_frame n (fv :: rest) now) as (Hi & Hc & _). auto.
Qed.

Lemma update_note_listing w note_id note_data now skip limit :
  comparable (PyDict.values (notes (db w))) = true ->
  exists page page' total,
    get_notes w skip limit = Ok (page, total) /\
    get_notes (snd (update_note w note_id note_data now)) skip limit
      = Ok (page', total) /\
    map nr_id page' = map nr_id page /\
    map nr_created_at page' = map nr_created_at page.
Proof.
  intros Hc.
  pose proof (update_note_related w note_id note_data now) as Hrel.
  assert (Hc' : comparable
            (PyDict.values
               (notes (db (snd (update_note w note_id note_data now))))) = true)
    by now rewrite (comparable_related _ _ Hrel).
  do 3 eexists. rewrite !get_notes_comparable by assumption.
  split; [reflexivity|]. split.
  - assert (Hlen :
      List.length (notes (db (snd (update_note w note_id note_data now))))
      = List.length (notes (db w))).
    { rewrite <- (length_map snd), <- (length_map snd (notes (db w))).
      exact (Forall2_length Hrel). }
    rewrite Hlen. reflexivity.
  - rewrite <- !slice_map. unfold listing.
    destruct (ids_related _ _
                (stable_sort_desc_related created _ _ _
                   (fun a b H => f_equal instant (proj1 H)) Hrel))
      as [H1 H2].
    now rewrite H1, H2.
Qed.

(** The listing reads the map only. *)
Lemma get_notes_db w1 w2 skip limit :
  db w1 = db w2 -> get_notes w1 skip limit = get_notes w2 skip limit.
Proof. unfold get_notes. now intros ->. Qed.

(** The map an Update leaves, when the model has a value for it, is the
    map that [update_note] leaves for some body without [null]. *)
Lemma update_note_body_db w note_id title content now r w' :
  update_note_body w note_id title content now = (r, Some w') ->
  exists note_data,
    db w' = db (snd (update_note w note_id note_data now)).
Proof.
  unfold update_note_body.
  destruct (to_NoteUpdate title content) as [u|].
  - pose proof (update_note_checked_db w note_id u now) as Hdb.
    destruct (update_note_checked w note_id u now) as [r0 w0].
    intros [= _ <-]. now exists u.
  - destruct (PyDict.mem note_id (notes (db w))) eqn:Em; [discriminate|].
    intros [= _ <-]. exists {| nu_title := None; nu_content := None |}.
    unfold update_note. unfold PyDict.mem in Em.
    now destruct (PyDict.get note_id (notes (db w))).
Qed.

(** X19.  An Update never moves a note in the listing: whether the Update
    returns or raises from the save, every page holds the same identifiers
    with the same creation instants, in the same order, as before it.
    (The one Update after which the model has no store is one that sets a
    field to [null] on a note that is in the store: it raises, and the
    listing raises after it.) *)
Theorem update_keeps_listing_order w note_id title content now skip limit
    r w' :
  comparable (PyDict.values (notes (db w))) = true ->
  update_note_body w note_id title content now = (r, Some w') ->
  exists page page' total,
    get_notes w skip limit = Ok (page, total) /\
    get_notes w' skip limit = Ok (page', total) /\
    map nr_id page' = map nr_id page /\
    map nr_created_at page' = map nr_created_at page.
Proof.
  intros Hc Hu.
  destruct (update_note_body_db _ _ _ _ _ _ _ Hu) as [u Hdb].
  rewrite (get_notes_db _ _ skip limit Hdb).
  now apply update_note_listing.
Qed.

Lemma update_keeps_listing_order_witness :
  exists r w' page page' total,
    update_note_body same_instant 1 (Str "Z") Absent 99 = (Ok r, Some w') /\
    get_notes same_instant 0 10 = Ok (page, total) /\
    get_notes w' 0 10 = Ok (page', total) /\
    map nr_id page' = [3; 1; 2] /\ map nr_id page = [3; 1; 2].
Proof.
  destruct (update_keeps_listing_order same_instant 1 (Str "Z") Absent 99
              0 10 _ _ eq_refl eq_refl)
    as (p & p' & t & E & E' & Hid & _).
  do 2 eexists. exists p, p', t.
  split; [reflexivity|]. split; [exact E|]. split; [exact E'|].
  vm_compute in E. injection E as <- _.
  split; [rewrite Hid|]; reflexivity.
Defined.

Lemma In_skipn {A} (x : A) k : forall l, In x (skipn k l) -> In x l.
Proof. induction k as [|k IH]; intros [|y l]; simpl; auto. Qed.

(** Whatever [insert_reverse] and [sort_reverse] return holds no element
    that was not put in. *)
Lemma insert_reverse_In {A K} (key : A -> K) lt x a : forall l r,
  PyList.insert_reverse key lt a l = Ok r -> In x r -> x = a \/ In x l.
Proof.
  induction l as [|b l IH]; simpl; intros r H Hx.
  - injection H as <-. destruct Hx as [<-|[]]. now left.
  - destruct (lt (key a) (key b)) as [[|]|]; simpl in H; try discriminate.
    + destruct (PyList.insert_reverse key lt a l) as [r'|] eqn:E;
        [|discriminate].
      simpl in H. injection H as <-.
      destruct Hx as [<-|Hx]; [right; now left|].
      destruct (IH _ eq_refl Hx); auto.
    + injection H as <-. destruct Hx as [<-|Hx]; auto.
Qed.

Lemma sort_reverse_In {A K} (key : A -> K) lt x : forall l r,
  PyList.sort_reverse key lt l = Ok r -> In x r -> In x l.
Proof.
  induction l as [|a l IH]; simpl; intros r H Hx.
  - injection H as <-. exact Hx.
  - destruct (PyList.sort_reverse key lt l) as [r'|] eqn:E; [|discriminate].
    simpl in H.
    destruct (insert_reverse_In _ _ _ _ _ _ H Hx) as [->|Hx']; [now left|right].
    now apply (IH _ eq_refl).
Qed.

Lemma del_key_gone {V} k (d : PyDict.dict V) kv :
  NoDup (PyDict.keys d) -> In kv (PyDict.del k d) -> fst kv <> k.
Proof.
  intros Hnd Hin Heq.
  pose proof (PyDictMore.get_del_same k d Hnd) as Hnone.
  apply PyDictMore.get_none_mem, PyDictFacts.mem_false_not_in in Hnone.
  apply Hnone. subst k. unfold PyDict.keys. now apply in_map.
Qed.

(** The responses of a map whose notes carry their keys: none has the
    identifier of a key that was deleted. *)
Lemma deleted_id_absent i (d : PyDict.dict note) :
  NoDup (PyDict.keys d) ->
  Forall (fun kv => id (snd kv) = fst kv) d ->
  ~ In i (map nr_id (map NoteResponse_of (PyDict.values (PyDict.del i d)))).
Proof.
  intros Hnd Hid Hin. unfold PyDict.values in Hin. rewrite !map_map in Hin.
  apply in_map_iff in Hin as (kv & Hkv & Hin). simpl in Hkv.
  pose proof (del_key_gone _ _ _ Hnd Hin) as Hne.
  apply PyDictMore.in_del in Hin.
  rewrite Forall_forall in Hid. rewrite (Hid _ Hin) in Hkv. contradiction.
Qed.



(** ** A note's life through the routes *)

(** X21.  In a store whose save does not raise, a POST with a valid title
    answers 201 with the new note; a GET of its identifier then answers 200
    with that same note; a DELETE answers 204, and after it a GET and a
    second DELETE both answer 404.  In a store whose save raises (a data
    file named without a directory) the same POST answers 500 and the note
    is in the store all the same. *)
Theorem router_note_lifecycle w title content now :
  NoDup (PyDict.keys (notes (db w))) ->
  title_ok title = true ->
  (save_raises (db w) = false ->
   exists r w1 w2,
     router_create_note w title content now = (Answer 201 r, w1) /\
     nr_title r = title /\ nr_content r = content /\
     router_get_note w1 (nr_id r) = Answer 200 r /\
     router_delete_note w1 (nr_id r) = (Answer 204 tt, w2) /\
     router_get_note w2 (nr_id r) = HTTPException 404 /\
     router_delete_note w2 (nr_id r) = (HTTPException 404, w2)) /\
  (save_raises (db w) = true ->
   exists w1,
     router_create_note w title content now = (HTTPException 500, w1) /\
     disk w1 = disk w /\
     exists r, router_get_note w1 (next_id (db w)) = Answer 200 r /\
               nr_title r = title /\ nr_content r = content).
Proof.
  intros Hnd Hok. split; intros Hsave.
  - unfold router_create_note, create_note_checked. rewrite Hok, Hsave.
    destruct (create_note w {| nc_title := title; nc_content := content |} now)
      as [r w1] eqn:Ec.
    assert (Hr : r = fst (create_note w
                   {| nc_title := title; nc_content := content |} now))
      by now rewrite Ec.
    assert (Hw1 : w1 = snd (create_note w
                   {| nc_title := title; nc_content := content |} now))
      by now rewrite Ec.
    assert (Hget : PyDict.get (nr_id r) (notes (db w1)) <> None).
    { subst r w1. unfold create_note. simpl.
      rewrite PyDictFacts.get_set_same. discriminate. }
    assert (Hmem : PyDict.mem (nr_id r) (notes (db w1)) = true).
    { unfold PyDict.mem. destruct (PyDict.get (nr_id r) (notes (db w1)));
        [reflexivity|contradiction]. }
    assert (Hsave1 : save_raises (db w1) = false).
    { subst w1. exact Hsave. }
    assert (Hnd1 : NoDup (PyDict.keys (notes (db w1)))).
    { subst w1. unfold create_note. simpl.
      now apply PyDictMore.NoDup_keys_set. }
    exists r, w1, (snd (delete_note w1 (nr_id r))).
    split; [reflexivity|].
    split; [subst r; reflexivity|]. split; [subst r; reflexivity|].
    split.
    { unfold router_get_note, get_note. subst r w1. unfold create_note. simpl.
      now rewrite PyDictFacts.get_set_same. }
    assert (Hgone : PyDict.get (nr_id r)
                      (PyDict.del (nr_id r) (notes (db w1))) = None)
      by now apply PyDictMore.get_del_same.
    split.
    { unfold router_delete_note, delete_note_checked, delete_note.
      now rewrite Hmem, Hsave1. }
    unfold router_get_note, router_delete_note, delete_note_checked,
      get_note, delete_note.
    rewrite Hmem. cbn [snd db notes with_notes with_contents].
    rewrite Hgone. split; [reflexivity|].
    apply PyDictMore.get_none_mem in Hgone. now rewrite Hgone.
  - unfold router_create_note, create_note_checked. rewrite Hok, Hsave.
    eexists. split; [reflexivity|]. split; [reflexivity|].
    unfold router_get_note, get_note. simpl.
    rewrite PyDictFacts.get_set_same. eexists. split; [reflexivity|].
    split; reflexivity.
Qed.

Lemma router_note_lifecycle_witness :
  title_ok "groceries" = true /\
  save_raises (db same_instant) = false /\
  exists r w1 w2,
    router_create_note same_instant "groceries" "milk" 7 = (Answer 201 r, w1) /\
    nr_id r = 4 /\
    router_get_note w1 4 = Answer 200 r /\
    router_delete_note w1 4 = (Answer 204 tt, w2) /\
    router_get_note w2 4 = HTTPException 404.
Proof.
  split; [reflexivity|]. split; [reflexivity|].
  assert (Hnd : NoDup (PyDict.keys (notes (db same_instant)))).
  { simpl. repeat constructor; simpl; intuition discriminate. }
  destruct (proj1 (router_note_lifecycle same_instant "groceries" "milk" 7
                     Hnd eq_refl) eq_refl)
    as (r & w1 & w2 & Ec & _ & _ & Hg & Hd & Hg' & _).
  assert (Hid : nr_id r = 4).
  { vm_compute in Ec. now injection Ec as <- _. }
  rewrite Hid in Hg, Hd, Hg'.
  exists r, w1, w2. auto.
Defined.
